(** * georges: MAD-X wrapper and linear transfer matrices

    A shallow embedding of [madx/madx.py] and [manzoni/transfer.py].

    - Python exceptions are values of [exn]; a function that may raise
      returns a [result].
    - numpy floats of the transfer-matrix library are idealised as real
      numbers ([R]); a numpy array is a list, indexed with an
      [IndexError] outside its bounds.
    - a pandas row ([Series]) is a finite map from column names to
      cells; a [DataFrame] is its list of labelled rows.
    - the wrapper object is a record threaded through a small
      state-and-exception monad: a mutation made before a [raise]
      stays visible afterwards, as in Python. *)

From Stdlib Require Import String Ascii List QArith Reals Lra Sorting Permutation.
From stdpp Require Import base option gmap strings list.

Local Open Scope string_scope.

(** ** Exceptions and results *)

Inductive exn : Type :=
| MadxException (m : string)
| SimulatorException (m : string)
| KeyError (k : string)
| IndexError (i : nat)
| AttributeError (a : string)
| NameError (n : string)
| TypeError (m : string)
| TemplateSyntaxError.   (* jinja2.TemplateSyntaxError, whatever its message *)

Inductive result (A : Type) : Type :=
| Ok (a : A)
| Raise (e : exn).
Arguments Ok {A} a.
Arguments Raise {A} e.

Definition rbind {A B} (r : result A) (k : A -> result B) : result B :=
  match r with
  | Ok a => k a
  | Raise e => Raise e
  end.

Notation "x <-? r ; k" := (rbind r (fun x => k))
  (at level 100, r at next level, right associativity).

(** The two exception classes the wrapper raises for missing or invalid
    configuration. *)
Definition is_configuration_error (e : exn) : bool :=
  match e with
  | MadxException _ | SimulatorException _ => true
  | _ => false
  end.

(** ** manzoni/transfer.py *)

Module Transfer.
Local Open Scope R_scope.

Definition matrix := list (list R).

(** [a @ b] on two-dimensional arrays. *)
Definition dot (u v : list R) : R :=
  fold_right Rplus 0 (zip_with Rmult u v).

Definition column (j : nat) (m : matrix) : list R :=
  map (fun row => nth j row 0) m.

Definition matmul (a b : matrix) : matrix :=
  map (fun row => map (fun j => dot row (column j b))
                      (seq 0 (length (hd [] b)))) a.

(** [x == y], [x > y] and [x < y] on floats. *)
Definition float_eq (x y : R) : bool := if Req_dec_T x y then true else false.
Definition float_gt (x y : R) : bool := if Rgt_dec x y then true else false.
Definition float_lt (x y : R) : bool := if Rlt_dec x y then true else false.

(** [np.eye(5)] *)
Definition eye5 : matrix :=
  [ [1; 0; 0; 0; 0];
    [0; 1; 0; 0; 0];
    [0; 0; 1; 0; 0];
    [0; 0; 0; 1; 0];
    [0; 0; 0; 0; 1] ].

(** [e[i]] on a one-dimensional array. *)
Definition array_item (e : list R) (i : nat) : result R :=
  match e !! i with
  | Some x => Ok x
  | None => Raise (IndexError i)
  end.

Section Functions.
(** The column indices of [constants.py]. *)
Variables INDEX_ANGLE INDEX_LENGTH INDEX_E1 INDEX_E2 INDEX_K1 : nat.

Definition rotation (e : list R) : result matrix :=
  angle <-? array_item e INDEX_ANGLE;
  Ok [ [cos angle; 0; - sin angle; 0; 0];
       [0; cos angle; 0; - sin angle; 0];
       [sin angle; 0; cos angle; 0; 0];
       [0; sin angle; 0; cos angle; 0];
       [0; 0; 0; 0; 1] ].

Definition drift (e : list R) : result matrix :=
  length <-? array_item e INDEX_LENGTH;
  Ok [ [1; length; 0; 0; 0];
       [0; 1; 0; 0; 0];
       [0; 0; 1; length; 0];
       [0; 0; 0; 1; 0];
       [0; 0; 0; 0; 1] ].

(** With a nonzero angle the source divides by [theta] and by
    [length].  A float quotient by zero is an infinity or a nan, which
    no real number stands for: at [length = 0] with [theta <> 0] the
    matrix below is not the program's, and the theorems that reach
    these quotients take [length <> 0] as a hypothesis. *)
Definition sbend (e : list R) : result matrix :=
  theta <-? array_item e INDEX_ANGLE;
  if float_eq theta 0 then drift e else
  length <-? array_item e INDEX_LENGTH;
  e1 <-? array_item e INDEX_E1;
  e2 <-? array_item e INDEX_E2;
  let s := sin theta in
  let c := cos theta in
  let m_b :=
    [ [c; (length / theta) * s; 0; 0; (length / theta) * (1 - c)];
      [- (theta / length) * s; c; 0; 0; s];
      [0; 0; 1; length; 0];
      [0; 0; 0; 1; 0];
      [0; 0; 0; 0; 1] ] in
  if float_eq e1 0 && float_eq e2 0 then Ok m_b
  else
    let k1 := (- 1 / (length / theta)) * tan e1 in
    let k2 := (- 1 / (length / theta)) * tan e2 in
    let m_e1 :=
      [ [1; 0; 0; 0; 0];
        [- k1; 1; 0; 0; 0];
        [0; 0; 1; 0; 0];
        [0; 0; k1; 1; 0];
        [0; 0; 0; 0; 1] ] in
    let m_e2 :=
      [ [1; 0; 0; 0; 0];
        [- k2; 1; 0; 0; 0];
        [0; 0; 1; 0; 0];
        [0; 0; k2; 1; 0];
        [0; 0; 0; 0; 1] ] in
    Ok (matmul (matmul m_e2 m_b) m_e1).

Definition quadrupole (e : list R) : result matrix :=
  length <-? array_item e INDEX_LENGTH;
  k <-? array_item e INDEX_K1;
  if float_gt k 0 then
    let k := sqrt k in
    let kl := k * length in
    let s := sin kl in
    let c := cos kl in
    let sh := sinh kl in
    let ch := cosh kl in
    Ok [ [c; (1 / k) * s; 0; 0; 0];
         [- k * s; c; 0; 0; 0];
         [0; 0; ch; (1 / k) * sh; 0];
         [0; 0; k * sh; ch; 0];
         [0; 0; 0; 0; 1] ]
  else if float_lt k 0 then
    let k := k * -1 in
    let k := sqrt k in
    let kl := k * length in
    let s := sin kl in
    let c := cos kl in
    let sh := sinh kl in
    let ch := cosh kl in
    Ok [ [ch; (1 / k) * sh; 0; 0; 0];
         [k * sh; ch; 0; 0; 0];
         [0; 0; c; (1 / k) * s; 0];
         [0; 0; - k * s; c; 0];
         [0; 0; 0; 0; 1] ]
  else Ok eye5.

End Functions.

(** *** The matrices as the specification writes them *)

(** Core bend matrix of a sector bend of angle [theta] and length [L]. *)
Definition core_bend (theta L : R) : matrix :=
  let s := sin theta in
  let c := cos theta in
  [ [c; (L / theta) * s; 0; 0; (L / theta) * (1 - c)];
    [- (theta / L) * s; c; 0; 0; s];
    [0; 0; 1; L; 0];
    [0; 0; 0; 1; 0];
    [0; 0; 0; 0; 1] ].

(** Thin-edge matrix of fringe-focusing coefficient [k]. *)
Definition thin_edge (k : R) : matrix :=
  [ [1; 0; 0; 0; 0];
    [- k; 1; 0; 0; 0];
    [0; 0; 1; 0; 0];
    [0; 0; k; 1; 0];
    [0; 0; 0; 0; 1] ].

(** Drift map of length [L]: [x += L x'], [y += L y']. *)
Definition drift_matrix (L : R) : matrix :=
  [ [1; L; 0; 0; 0];
    [0; 1; 0; 0; 0];
    [0; 0; 1; L; 0];
    [0; 0; 0; 1; 0];
    [0; 0; 0; 0; 1] ].

(** Entry [(i, j)] of a matrix, counted from zero. *)
Definition entry (m : matrix) (i j : nat) : R := nth j (nth i m []) 0.

(** The 2x2 block whose upper-left corner is [(i, i)]. *)
Definition block2 (m : matrix) (i : nat) : matrix :=
  [ [entry m i i; entry m i (S i)];
    [entry m (S i) i; entry m (S i) (S i)] ].

Definition horizontal_block (m : matrix) : matrix := block2 m 0.
Definition vertical_block (m : matrix) : matrix := block2 m 2.

(** Trigonometric (focusing) and hyperbolic (defocusing) 2x2 blocks. *)
Definition trig_block (kappa L : R) : matrix :=
  [ [cos (kappa * L); sin (kappa * L) / kappa];
    [- kappa * sin (kappa * L); cos (kappa * L)] ].

Definition hyp_block (kappa L : R) : matrix :=
  [ [cosh (kappa * L); sinh (kappa * L) / kappa];
    [kappa * sinh (kappa * L); cosh (kappa * L)] ].

End Transfer.

(** ** madx/madx.py: cells, rows and tables *)

Module MadX.

(** The value of one cell of a pandas table. *)
Inductive cell : Type :=
| CNone                 (* None *)
| CNaN                  (* float('nan') *)
| CNum (x : Q)          (* a finite number *)
| CStr (s : string).    (* a str *)

(** A row ([pandas.Series]): its label and its cells by column name.
    A column the table does not have is absent from the map. *)
Record Series : Type := {
  name : string;
  cells : gmap string cell
}.

(** A table ([pandas.DataFrame]) carrying the [name] and [length]
    attributes that [sequence_to_mad] reads. *)
Record DataFrame : Type := {
  sequence_name : string;
  sequence_length : cell;
  columns : list string;
  rows : list Series
}.

Record Beamline : Type := {
  beamline_name : string;
  beamline_length : cell;
  line : DataFrame
}.

(** An argument handed to a command template. *)
Inductive arg : Type :=
| ACell (c : cell)
| ARow (r : Series)
| AObject (n : string).   (* a module, class, function or list named [n] *)

Definition nl : string := String "010"%char "".

Definition SUPPORTED_PROPERTIES : list string :=
  ["APERTYPE"; "E1"; "E2"; "FINT"; "HGAP"; "THICK"; "TILT";
   "K1"; "K2"; "K3"; "K1S"; "K2S"; "K3S"].

Definition SUPPORTED_CLASSES : list string :=
  ["QUADRUPOLE"; "RBEND"; "SBEND"; "SEXTUPOLE"; "OCTUPOLE";
   "MARKER"; "COLLIMATOR"; "INSTRUMENT"].

(** [e.get(k)], [e[k]] and the attribute access [e.CLASS]. *)
Definition get (e : Series) (k : string) : cell :=
  default CNone (cells e !! k).

Definition get_default (e : Series) (k : string) (d : cell) : cell :=
  default d (cells e !! k).

Definition getitem (e : Series) (k : string) : result cell :=
  match cells e !! k with
  | Some c => Ok c
  | None => Raise (KeyError k)
  end.

Definition getattr (e : Series) (k : string) : result cell :=
  match cells e !! k with
  | Some c => Ok c
  | None => Raise (AttributeError k)
  end.

(** [c is None], [pd.isnull(c)], [pd.notnull(c)], [np.isnan(c)]. *)
Definition is_None (c : cell) : bool :=
  match c with CNone => true | _ => false end.

Definition pd_isnull (c : cell) : bool :=
  match c with CNone | CNaN => true | _ => false end.

Definition pd_notnull (c : cell) : bool := negb (pd_isnull c).

Definition np_isnan (c : cell) : result bool :=
  match c with
  | CNaN => Ok true
  | CNum _ => Ok false
  | CNone | CStr _ => Raise (TypeError "ufunc 'isnan' not supported for the input types")
  end.

(** [a == b] between two cells; [nan] equals nothing. *)
Definition cell_eqb (a b : cell) : bool :=
  match a, b with
  | CNone, CNone => true
  | CNum x, CNum y => Qeq_bool x y
  | CStr s, CStr t => String.eqb s t
  | _, _ => false
  end.

(** [c in l] for a list of str. *)
Definition cell_in (c : cell) (l : list string) : bool :=
  existsb (cell_eqb c) (map CStr l).

(** [sep.join(l)] *)
Fixpoint join (sep : string) (l : list string) : string :=
  match l with
  | [] => ""
  | [s] => s
  | s :: rest => s +:+ sep +:+ join sep rest
  end.

(** [s.strip('[]')] *)
Definition is_bracket (a : ascii) : bool :=
  (Ascii.eqb a "["%char || Ascii.eqb a "]"%char)%bool.

Fixpoint lstrip_brackets (s : string) : string :=
  match s with
  | String a rest => if is_bracket a then lstrip_brackets rest else s
  | EmptyString => EmptyString
  end.

Definition strip_brackets (s : string) : string :=
  String.rev (lstrip_brackets (String.rev (lstrip_brackets s))).

(** Run [f] over a list, stopping at the first exception. *)
Fixpoint mapM {A B} (f : A -> result B) (l : list A) : result (list B) :=
  match l with
  | [] => Ok []
  | a :: rest =>
      b <-? f a;
      bs <-? mapM f rest;
      Ok (b :: bs)
  end.

(** *** Ordering rows by position

    [sort_values] orders a numeric column ascending and puts null
    entries last. Positions are numbers: a str cell in the column is
    reported as the [TypeError] pandas raises when it compares a str
    with a number. Rows of equal position keep their relative order
    here; pandas leaves their order unspecified. *)

Definition position_le (a b : cell) : bool :=
  match a, b with
  | CNum x, CNum y => Qle_bool x y
  | CNum _, _ => true
  | _, CNum _ => false
  | _, _ => true
  end.

Definition is_str (c : cell) : bool :=
  match c with CStr _ => true | _ => false end.

Section Sorting.
Variable by_ : string.

Fixpoint insert_row (r : Series) (l : list Series) : list Series :=
  match l with
  | [] => [r]
  | h :: t =>
      if position_le (get h by_) (get r by_) then h :: insert_row r t
      else r :: l
  end.

Definition sort_rows (l : list Series) : list Series :=
  fold_left (fun acc r => insert_row r acc) l [].

Definition sort_values (df : DataFrame) : result DataFrame :=
  if negb (bool_decide (by_ ∈ columns df)) then Raise (KeyError by_)
  else if existsb (fun r => is_str (get r by_)) (rows df)
  then Raise (TypeError "'<' not supported between instances of 'str' and 'float'")
  else Ok {| sequence_name := sequence_name df;
             sequence_length := sequence_length df;
             columns := columns df;
             rows := sort_rows (rows df) |}.
End Sorting.

(** [df[c].dropna()]: the non-null cells of a column, in row order. *)
Definition column_dropna (c : string) (df : DataFrame) : list cell :=
  List.filter pd_notnull (map (fun r => get r c) (rows df)).

(** ** madx/madx.py: translation to MAD-X text *)

Section Translation.
(** [str(x)] of a finite number. *)
Variable str_of_number : Q -> string.

(** ["{}".format(c)] and [str(c)] *)
Definition format_cell (c : cell) : string :=
  match c with
  | CNone => "None"
  | CNaN => "nan"
  | CNum x => str_of_number x
  | CStr s => s
  end.

(** [e.get(k) is not None and not np.isnan(e[k])] *)
Definition present_and_finite (e : Series) (k : string) : result bool :=
  if is_None (get e k) then Ok false
  else
    v <-? getitem e k;
    nan <-? np_isnan v;
    Ok (negb nan).

(** [e[k] != 0.0] *)
Definition differs_from_zero (c : cell) : bool :=
  negb (cell_eqb c (CNum 0)).

Definition element_to_mad (e : Series) : result string :=
  cls <-? getattr e "CLASS";
  if negb (cell_in cls SUPPORTED_CLASSES) then Ok "" else
  let mad := name e +:+ ": " +:+ format_cell cls +:+ ", " in
  bending <-? present_and_finite e "BENDING_ANGLE";
  mad <-? (if bending then
             v <-? getitem e "BENDING_ANGLE";
             Ok (mad +:+ "ANGLE=" +:+ format_cell v +:+ ",")
           else
             angle <-? present_and_finite e "ANGLE";
             if angle then
               Ok (mad +:+ "ANGLE=" +:+ format_cell (get_default e "ANGLE" (CNum 0)) +:+ ",")
             else Ok (mad +:+ ""));
  props <-? mapM (fun p => v <-? getitem e p; Ok (p +:+ "=" +:+ format_cell v))
                 (List.filter (fun p => pd_notnull (get e p)) SUPPORTED_PROPERTIES);
  let mad := mad +:+ join ", " props in
  length <-? getitem e "LENGTH";
  let mad := if (pd_notnull length && differs_from_zero length)%bool
             then mad +:+ ", L=" +:+ format_cell length else mad in
  mad <-? (if pd_notnull (get e "APERTYPE") then
             aperture <-? getitem e "APERTURE";
             Ok (mad +:+ ", APERTURE=" +:+ strip_brackets (format_cell aperture))
           else Ok mad);
  mad <-? (if (pd_notnull (get e "PLUG") && pd_notnull (get e "CIRCUIT")
               && pd_isnull (get e "VALUE"))%bool then
             plug <-? getitem e "PLUG";
             circuit <-? getitem e "CIRCUIT";
             Ok (mad +:+ ", " +:+ format_cell plug +:+ ":=" +:+ format_cell circuit)
           else Ok mad);
  mad <-? (if (pd_notnull (get e "PLUG") && pd_notnull (get e "VALUE"))%bool then
             plug <-? getitem e "PLUG";
             value <-? getitem e "VALUE";
             Ok (mad +:+ ", " +:+ format_cell plug +:+ "=" +:+ format_cell value)
           else Ok mad);
  at_center <-? getitem e "AT_CENTER";
  let mad := mad +:+ ", AT=" +:+ format_cell at_center in
  Ok (mad +:+ ";").

(** ["{}:={{{{ {} or '0.0' }}}};".format(c, c)] *)
Definition circuit_line (c : cell) : string :=
  format_cell c +:+ ":={{ " +:+ format_cell c +:+ " or '0.0' }};".

(** [sequence.apply(element_to_mad, axis=1)] as [join] iterates it:
    the lines of the rows, in row order.  On a table without rows
    [apply] returns the table itself, and iterating a table gives its
    column labels. *)
Definition apply_element_to_mad (sequence : DataFrame) : result (list string) :=
  match rows sequence with
  | [] => Ok (columns sequence)
  | _ :: _ => mapM element_to_mad (rows sequence)
  end.

(** The table is sorted in place before anything is emitted, so the
    caller's table is left sorted even when a row fails to translate:
    the first component is the table after the call. The test
    [sequence is None] that follows the sort in the source cannot
    succeed, the sort having been called on [sequence] already. *)
Definition sequence_to_mad (sequence : DataFrame) : DataFrame * result string :=
  match sort_values "AT_CENTER" sequence with
  | Raise e => (sequence, Raise e)
  | Ok sequence =>
      (sequence,
       let m := sequence_name sequence +:+ ": SEQUENCE, L="
                +:+ format_cell (sequence_length sequence) +:+ ", REFER=CENTER;" +:+ nl in
       lines <-? apply_element_to_mad sequence;
       let m := m +:+ join nl lines +:+ nl in
       let m := m +:+ "ENDSEQUENCE;" +:+ nl in
       if bool_decide ("CIRCUIT" ∈ columns sequence) then
         let m := m +:+ join nl (map circuit_line (column_dropna "CIRCUIT" sequence)) in
         Ok (m +:+ nl)
       else Ok m)
  end.

End Translation.

(** ** madx/madx.py: the wrapper object *)

Definition context := gmap string cell.

(** The fields of a [Madx] instance, with two traces of what the
    instance has done to the outside: the lines it printed and the
    subprocesses it started (executable and standard input). *)
Record Madx : Type := {
  _input : string;
  _beamlines : list Beamline;
  _exec : string;
  _output : string;
  _warnings : list string;
  _fatals : list string;
  _last_context : context;
  console : list string;
  spawned : list (string * string)
}.

Definition set_input (self : Madx) (v : string) : Madx :=
  {| _input := v; _beamlines := _beamlines self; _exec := _exec self;
     _output := _output self; _warnings := _warnings self; _fatals := _fatals self;
     _last_context := _last_context self; console := console self;
     spawned := spawned self |}.

Definition set_beamlines (self : Madx) (v : list Beamline) : Madx :=
  {| _input := _input self; _beamlines := v; _exec := _exec self;
     _output := _output self; _warnings := _warnings self; _fatals := _fatals self;
     _last_context := _last_context self; console := console self;
     spawned := spawned self |}.

Definition set_console (self : Madx) (v : list string) : Madx :=
  {| _input := _input self; _beamlines := _beamlines self; _exec := _exec self;
     _output := _output self; _warnings := _warnings self; _fatals := _fatals self;
     _last_context := _last_context self; console := v;
     spawned := spawned self |}.

(** What a finished subprocess leaves in the instance. *)
Definition set_run_result (self : Madx) (path stdin output : string)
    (warnings fatals : list string) (ctx : context) : Madx :=
  {| _input := _input self; _beamlines := _beamlines self; _exec := _exec self;
     _output := output; _warnings := warnings; _fatals := fatals;
     _last_context := ctx; console := console self;
     spawned := (spawned self ++ [(path, stdin)])%list |}.

(** A method body: it transforms the instance and returns or raises.
    The instance that comes out of a raising call is the instance at
    the point of the [raise]. *)
Definition M (A : Type) : Type := Madx -> Madx * result A.

Definition ret {A} (a : A) : M A := fun self => (self, Ok a).
Definition raise {A} (e : exn) : M A := fun self => (self, Raise e).
Definition lift {A} (r : result A) : M A := fun self => (self, r).
Definition read : M Madx := fun self => (self, Ok self).
Definition update (f : Madx -> Madx) : M unit := fun self => (f self, Ok tt).

Definition bind {A B} (m : M A) (k : A -> M B) : M B :=
  fun self =>
    match m self with
    | (self', Ok a) => k a self'
    | (self', Raise e) => (self', Raise e)
    end.

Notation "x <- m ;; k" := (bind m (fun x => k))
  (at level 100, m at next level, right associativity).
Notation "m ;; k" := (bind m (fun _ => k))
  (at level 100, right associativity).

(** [for a in l: f(a)] *)
Fixpoint for_each {A} (l : list A) (f : A -> M unit) : M unit :=
  match l with
  | [] => ret tt
  | a :: rest => f a;; for_each rest f
  end.

(** [print(s)] *)
Definition print (s : string) : M unit :=
  update (fun self => set_console self (console self ++ [s])%list).

(** [self._input += s] *)
Definition append_input (s : string) : M unit :=
  update (fun self => set_input self (_input self +:+ s)).

(** [s.split(sep)] for a one-character separator. *)
Fixpoint split_on (sep : ascii) (s : string) : list string :=
  match s with
  | EmptyString => [""]
  | String a rest =>
      if Ascii.eqb a sep then "" :: split_on sep rest
      else match split_on sep rest with
           | h :: t => String a h :: t
           | [] => [String a ""]
           end
  end.

(** [re.search(pat, line)] for a pattern without metacharacters. *)
Definition contains (pat line : string) : bool :=
  match String.index 0 pat line with
  | Some _ => true
  | None => false
  end.

(** [re.search('warning|fatal', line)] and [re.search('fatal', line)] *)
Definition is_warning (line : string) : bool :=
  (contains "warning" line || contains "fatal" line)%bool.
Definition is_fatal (line : string) : bool := contains "fatal" line.

(** Names bound at the top level of madx.py: its imports, constants,
    classes and functions. *)
Definition module_globals : list string :=
  ["sub"; "jinja2"; "re"; "pd"; "np"; "madx_syntax"; "Simulator";
   "SimulatorException"; "SUPPORTED_PROPERTIES"; "SUPPORTED_CLASSES";
   "MadxException"; "element_to_mad"; "sequence_to_mad"; "Madx"].

(** Reading a name that is not local to the function. *)
Definition load_global (n : string) : result arg :=
  if bool_decide (n ∈ module_globals) then Ok (AObject n)
  else Raise (NameError n).

(** Attributes of an instance: the fields, and the methods of the
    class under the names Python gives them (a method whose name
    starts with two underscores is stored as [_Madx__name]). *)
Definition Madx_attributes : list string :=
  ["_input"; "_beamlines"; "_exec"; "_syntax"; "_output"; "_warnings";
   "_fatals"; "_last_context"; "EXECUTABLE_NAME"; "__init__"; "_attach";
   "run"; "raw"; "select_columns"; "call_file"; "beam"; "use_sequence";
   "rbarc"; "show_beam"; "save_beta"; "stop"; "makethin"; "survey";
   "sectormap"; "twiss"; "_Madx__madx_twiss"; "_Madx__ptc_twiss";
   "_Madx__add_particles_for_tracking";
   "_Madx__generate_observation_points";
   "_Madx__generate_observation_points_ptc"; "misalign"; "track";
   "_Madx__madx_track"; "_Madx__ptc_track"; "match";
   "_Madx__add_misalignment_element"].

(** Modelled from the spec: simulator.py is not among the sources; the
    base abstraction offers attach, the templated-command append and
    the executable resolution. *)
Definition Simulator_attributes : list string :=
  ["attach"; "_attach"; "_add_input"; "_get_exec"].

(** [self.n]: the lookup that precedes a call [self.n(...)]. *)
Definition getattr_self (n : string) : M unit :=
  if bool_decide (n ∈ (Madx_attributes ++ Simulator_attributes)%list) then ret tt
  else raise (AttributeError n).

(** Keyword arguments. *)
Record run_kwargs : Type := {
  kw_context : option context;
  kw_debug : option Z
}.

Record match_kwargs : Type := {
  kw_sequence : option string;
  kw_vary : option (list string);
  kw_constraints : option (gmap string string)
}.

(** ** madx/madx.py: the methods of [Madx] *)

Section Methods.
Variable str_of_number : Q -> string.
(** The command templates of grammar.py, by command name. *)
Variable madx_syntax : string -> string.
(** [str.format]: a template filled with positional arguments. *)
Variable str_format : string -> list arg -> string.
(** [jinja2.Template(text).render(context)] *)
Variable jinja2_render : string -> context -> string.
(** The search for an executable of a given name on this platform. *)
Variable resolve_executable : string -> option string.
(** The engine: what the process started from an executable prints
    when it is fed a standard input. *)
Variable communicate : string -> string -> string.

(** Modelled from the spec: [Simulator._add_input] is not among the
    sources; it looks the template up by name in the grammar and
    appends its rendered text to the buffer. *)
Definition _add_input (keyword : string) (args : list arg) : M unit :=
  append_input (str_format (madx_syntax keyword) args).

(** Modelled from the spec: [Simulator._get_exec] is not among the
    sources; it yields the path or name of the engine binary, or
    nothing when it is not resolved. *)
Definition _get_exec : M (option string) :=
  self <- read;;
  ret (resolve_executable (_exec self)).

(** Modelled from the spec: [Simulator._attach] is not among the
    sources; it records the beamline for later use. *)
Definition Simulator_attach (beamline : Beamline) : M unit :=
  update (fun self => set_beamlines self (_beamlines self ++ [beamline])%list).

Definition with_line (beamline : Beamline) (l : DataFrame) : Beamline :=
  {| beamline_name := beamline_name beamline;
     beamline_length := beamline_length beamline;
     line := l |}.

(** [sequence_to_mad] sorts [beamline.line] in place: the beamline
    recorded last, which is this one, is left with the sorted table. *)
Definition _attach (beamline : Beamline) : M unit :=
  Simulator_attach beamline;;
  if (is_None (beamline_length beamline) || pd_isnull (beamline_length beamline))%bool
  then raise (SimulatorException "Beamline length not defined.")
  else
    let '(sorted, text) := sequence_to_mad str_of_number (line beamline) in
    update (fun self =>
      set_beamlines self
        (<[pred (List.length (_beamlines self)) := with_line beamline sorted]>
           (_beamlines self)));;
    text <- lift text;;
    append_input text.

(** The executable is resolved once more, to the same value, for the
    argument of [Popen]; [path] stands for both.  The renderer is
    total: this is [run] on a buffer that the template engine
    renders.  [MadXRendering.run] below has the exception the engine
    raises on any other buffer. *)
Definition run (kwargs : run_kwargs) : M unit :=
  append_input (madx_syntax "stop");;
  self <- read;;
  let ctx := default ∅ (kw_context kwargs) in
  let debug := default 0%Z (kw_debug kwargs) in
  let template_input := jinja2_render (_input self) ctx in
  (if (2 <=? debug)%Z then print template_input else ret tt);;
  exec <- _get_exec;;
  match exec with
  | None =>
      raise (MadxException "Can't run MADX if no valid path and executable are defined.")
  | Some path =>
      let output := communicate path template_input in
      update (fun self =>
        set_run_result self path template_input output
          (List.filter is_warning (split_on "010"%char output))
          (List.filter is_fatal (split_on "010"%char output))
          ctx);;
      if negb (debug =? 0)%Z then print output else ret tt
  end.

Definition raw (r : string) : M unit :=
  append_input (r +:+ nl).

Definition use_sequence (sequence : string) : M unit :=
  _add_input "use_sequence" [ACell (CStr sequence)].

Definition makethin (sequence : string) (kwargs : gmap string cell) : M unit :=
  let style := default (CStr "TEAPOT") (kwargs !! "style") in
  let dipole_slices := default (CNum 4) (kwargs !! "dipole_slices") in
  let quadrupole_slices := default (CNum 4) (kwargs !! "quadrupole_slices") in
  append_input ("SELECT, FLAG=makethin, CLASS=quadrupole, THICK=false, SLICE="
                +:+ format_cell str_of_number quadrupole_slices +:+ ";" +:+ nl);;
  append_input ("SELECT, FLAG=makethin, CLASS=rbend, THICK=false, SLICE="
                +:+ format_cell str_of_number dipole_slices +:+ ";" +:+ nl);;
  _add_input "makethin" [ACell (CStr sequence); ACell style];;
  use_sequence sequence.

(** [a > b] on two sets of names: [b] is a proper subset of [a]. *)
Definition proper_superset (a b : list string) : bool :=
  (forallb (fun x => bool_decide (x ∈ a)) b
   && negb (forallb (fun x => bool_decide (x ∈ b)) a))%bool.

Definition _Madx__add_particles_for_tracking (particles : DataFrame) (ptc : bool) : M unit :=
  if proper_superset ["X"; "PX"; "Y"; "PY"; "DPP"] (columns particles) then ret tt
  else
    for_each (rows particles) (fun r =>
      if ptc then _add_input "ptc_start" [ARow r]
      else _add_input "start_particle" [ARow r]).

Definition _Madx__generate_observation_points (e : Series) (length : cell) : M unit :=
  at_exit <- lift (getitem e "AT_EXIT");;
  if negb (cell_eqb at_exit length) then _add_input "observe" [ACell (CStr (name e))]
  else ret tt.

(** The source calls [self._add_particles_for_tracking], with one
    leading underscore; the helper defined in the class is stored as
    [_Madx__add_particles_for_tracking]. The lookup comes first; the
    helper is what the call would reach under the name written in
    [__ptc_track]. *)
Definition _Madx__madx_track (particles : DataFrame) (beamline : Beamline)
    (kwargs : gmap string cell) : M unit :=
  if (List.length (rows particles) =? 0)%nat then
    print "No particles to track... Doing nothing."
  else
    makethin (beamline_name beamline) kwargs;;
    _add_input "track_beamline" [];;
    getattr_self "_add_particles_for_tracking";;
    _Madx__add_particles_for_tracking particles false;;
    for_each (rows (line beamline)) (fun e =>
      _Madx__generate_observation_points e (beamline_length beamline));;
    _add_input "run_track_beamline" [];;
    _add_input "end_track" [].

(** The last line of the source passes [sequence], a name bound
    neither in the method ([seq] is) nor in the module. *)
Definition match_ (kwargs : match_kwargs) : M unit :=
  let seq := kw_sequence kwargs in
  let vary := kw_vary kwargs in
  let constraints := kw_constraints kwargs in
  if bool_decide (seq = None) then
    raise (MadxException "A sequence name must be provided.")
  else if (bool_decide (vary = None) || (List.length (default [] vary) <? 1)%nat)%bool then
    raise (MadxException "A list of length > 0 of parameters must be provided.")
  else if bool_decide (constraints = None) then
    raise (MadxException "A dictionary of constraints should be provided.")
  else
    sequence <- lift (load_global "sequence");;
    _add_input "match" [sequence].

End Methods.

(** ** Predicates of the statements *)


(** The two angle fields of a row hold numbers, nulls or nothing. *)
Definition numeric_angles (e : Series) : Prop :=
  is_str (get e "BENDING_ANGLE") = false /\ is_str (get e "ANGLE") = false.

(** ** Sample data *)

Definition sample_row (label cls : string) (at_center circuit : cell) : Series :=
  {| name := label;
     cells := list_to_map [("CLASS", CStr cls); ("LENGTH", CNum 1);
                           ("AT_CENTER", at_center); ("CIRCUIT", circuit)] |}.

Definition sample_table : DataFrame :=
  {| sequence_name := "BEAMLINE";
     sequence_length := CNum 10;
     columns := ["CLASS"; "LENGTH"; "AT_CENTER"; "CIRCUIT"];
     rows := [sample_row "Q2" "QUADRUPOLE" (CNum 7) (CStr "IQ2");
              sample_row "D1" "DRIFT" (CNum 2) CNaN;
              sample_row "Q1" "QUADRUPOLE" (CNum 4) (CStr "IQ1")] |}.

Definition sample_collimator : Series :=
  {| name := "C1";
     cells := list_to_map [("CLASS", CStr "COLLIMATOR"); ("APERTYPE", CStr "CIRCLE");
                           ("LENGTH", CNum 1); ("AT_CENTER", CNum 3)] |}.

Definition sample_beamline (length : cell) : Beamline :=
  {| beamline_name := "BEAMLINE"; beamline_length := length; line := sample_table |}.

Definition sample_instance : Madx :=
  {| _input := "BEAM;"; _beamlines := []; _exec := "madx"; _output := "";
     _warnings := []; _fatals := []; _last_context := ∅; console := [];
     spawned := [] |}.

(** Stand-ins for what lies outside the sources: a grammar, a
    formatter and a renderer that leave the text as it is, a platform
    without the executable and one with it, and an engine with a
    fixed output. *)
Definition sample_syntax (keyword : string) : string :=
  if String.eqb keyword "stop" then "STOP;" +:+ nl else keyword +:+ ";" +:+ nl.

Definition sample_format (template : string) (args : list arg) : string := template.

Definition sample_render (text : string) (ctx : context) : string := text.

Definition no_executable (name : string) : option string := None.

Definition local_executable (name : string) : option string :=
  Some ("/usr/local/bin/" +:+ name).

Definition sample_engine (path stdin : string) : string :=
  "++++++ info: ok" +:+ nl +:+ "++++++ warning: unused" +:+ nl +:+ "+++ fatal error".

(** A stand-in for [str] on numbers: the integer part in unary. *)
Definition sample_str (x : Q) : string :=
  String.concat "" (repeat "|" (Z.to_nat (Qnum x / Zpos (Qden x)))).

End MadX.

(** ** manzoni/transfer.py: the dispatch table and the shape of matrices *)

Module TransferTable.
Import Transfer.
Local Open Scope R_scope.

(** Shape of a transfer matrix: five rows of five entries. *)
Definition is_5x5 (m : matrix) : Prop :=
  length m = 5%nat /\ Forall (fun row => length row = 5%nat) m.

Section Table.
Variables INDEX_ANGLE INDEX_LENGTH INDEX_E1 INDEX_E2 INDEX_K1 : nat.
(** The class codes of [constants.py], by class name. *)
Variable CLASS_CODES : gmap string nat.

(** [CLASS_CODES[n]] *)
Definition class_code (n : string) : result nat :=
  match CLASS_CODES !! n with
  | Some c => Ok c
  | None => Raise (KeyError n)
  end.

(** The dictionary display [transfer]: its keys are evaluated in the
    order written, and an entry written later replaces an earlier one
    under the same key. *)
Definition transfer : result (gmap nat (list R -> result matrix)) :=
  c_drift <-? class_code "DRIFT";
  c_sbend <-? class_code "SBEND";
  c_quadrupole <-? class_code "QUADRUPOLE";
  c_rotation <-? class_code "ROTATION";
  Ok (<[c_rotation := rotation INDEX_ANGLE]>
        (<[c_quadrupole := quadrupole INDEX_LENGTH INDEX_K1]>
           (<[c_sbend := sbend INDEX_ANGLE INDEX_LENGTH INDEX_E1 INDEX_E2]>
              (<[c_drift := drift INDEX_LENGTH]> ∅)))).

End Table.
End TransferTable.

(** ** madx/madx.py: the text of an element, part by part *)

Module MadXText.
Import MadX.

(** The cell holds a number. *)
Definition is_number (c : cell) : bool :=
  match c with CNum _ => true | _ => false end.

Section Parts.
Variable str_of_number : Q -> string.

(** The angle term: the BENDING_ANGLE when it is a number, else the
    ANGLE when it is one, else nothing. *)
Definition angle_text (e : Series) : string :=
  if is_number (get e "BENDING_ANGLE") then
    "ANGLE=" +:+ format_cell str_of_number (get e "BENDING_ANGLE") +:+ ","
  else if is_number (get e "ANGLE") then
    "ANGLE=" +:+ format_cell str_of_number (get e "ANGLE") +:+ ","
  else "".

(** The non-null supported properties, in the order of the list. *)
Definition properties_text (e : Series) : string :=
  join ", "
    (map (fun p => p +:+ "=" +:+ format_cell str_of_number (get e p))
       (List.filter (fun p => pd_notnull (get e p)) SUPPORTED_PROPERTIES)).

(** The length term, for a length that is neither null nor zero. *)
Definition length_text (length : cell) : string :=
  if (pd_notnull length && differs_from_zero length)%bool
  then ", L=" +:+ format_cell str_of_number length else "".

(** The powering terms: the circuit assignment when no value is
    given, the value assignment when one is. *)
Definition powering_text (e : Series) : string :=
  (if (pd_notnull (get e "PLUG") && pd_notnull (get e "CIRCUIT")
       && pd_isnull (get e "VALUE"))%bool
   then ", " +:+ format_cell str_of_number (get e "PLUG") +:+ ":="
        +:+ format_cell str_of_number (get e "CIRCUIT")
   else "")
  +:+ (if (pd_notnull (get e "PLUG") && pd_notnull (get e "VALUE"))%bool
       then ", " +:+ format_cell str_of_number (get e "PLUG") +:+ "="
            +:+ format_cell str_of_number (get e "VALUE")
       else "").

Definition element_text (e : Series) (cls : string) (length : cell)
    (aperture : string) (at_center : cell) : string :=
  name e +:+ ": " +:+ cls +:+ ", " +:+ angle_text e +:+ properties_text e
  +:+ length_text length +:+ aperture +:+ powering_text e
  +:+ ", AT=" +:+ format_cell str_of_number at_center +:+ ";".

(** What the translation of an element of supported class [cls]
    comes to: three lookups that may fail, in this order, around a
    text made of the parts above. *)
Definition expected_element (e : Series) (cls : string) : result string :=
  length <-? getitem e "LENGTH";
  aperture <-? (if pd_notnull (get e "APERTYPE") then
                  a <-? getitem e "APERTURE";
                  Ok (", APERTURE=" +:+ strip_brackets (format_cell str_of_number a))
                else Ok "");
  at_center <-? getitem e "AT_CENTER";
  Ok (element_text e cls length aperture at_center).

End Parts.

(** A sample bend with both angle fields. *)
Definition sample_bend : Series :=
  {| name := "B1";
     cells := list_to_map [("CLASS", CStr "SBEND"); ("BENDING_ANGLE", CNum 1);
                           ("ANGLE", CNum 2); ("LENGTH", CNum 1);
                           ("AT_CENTER", CNum 3)] |}.

(** The row [e] with its ANGLE field set to [v]. *)
Definition with_angle (e : Series) (v : cell) : Series :=
  {| name := name e; cells := <["ANGLE" := v]> (cells e) |}.

End MadXText.

(** ** Further sample data *)

Module MadXSamples.
Import MadX.

(** A table whose second row in position order, the collimator, has
    an aperture type and no aperture. *)
Definition sample_broken_table : DataFrame :=
  {| sequence_name := "BEAMLINE";
     sequence_length := CNum 10;
     columns := ["CLASS"; "APERTYPE"; "LENGTH"; "AT_CENTER"; "CIRCUIT"];
     rows := [sample_collimator;
              sample_row "Q1" "QUADRUPOLE" (CNum 1) CNaN] |}.

(** Two particle tables of two rows: one with only two of the five
    coordinates, one that lacks DPP but times its particles. *)
Definition sample_particle (x : Q) : Series :=
  {| name := "0"; cells := list_to_map [("X", CNum x); ("PX", CNum 0)] |}.

Definition sample_partial_particles : DataFrame :=
  {| sequence_name := ""; sequence_length := CNone;
     columns := ["X"; "PX"];
     rows := [sample_particle 1; sample_particle 2] |}.

Definition sample_timed_particles : DataFrame :=
  {| sequence_name := ""; sequence_length := CNone;
     columns := ["X"; "PX"; "Y"; "PY"; "T"];
     rows := [sample_particle 1; sample_particle 2] |}.

End MadXSamples.

(** ** madx/madx.py: the remaining command builders *)

Module MadXCommands.
Import MadX.

(** [bool(c)] *)
Definition truthy (c : cell) : bool :=
  match c with
  | CNone => false
  | CNaN => true
  | CNum x => negb (Qeq_bool x 0)
  | CStr s => negb (String.eqb s "")
  end.

(** [np.nan_to_num(c)]: a NaN becomes zero, anything else is kept. *)
Definition nan_to_num (c : cell) : cell :=
  match c with
  | CNaN => CNum 0
  | _ => c
  end.

(** The constants [True] and [False] handed to a template: objects
    known by their names. *)
Definition py_True : arg := AObject "True".
Definition py_False : arg := AObject "False".

(** The value of a keyword argument of [sectormap] and [twiss]: a
    cell, a beamline ([line=]) or a list ([places=]). *)
Inductive kwvalue : Type :=
| KCell (c : cell)
| KLine (b : Beamline)
| KList (l : list cell).

(** Keyword arguments, in the order they were given. *)
Definition kwargs := list (string * kwvalue).

Fixpoint kw_lookup (kw : kwargs) (k : string) : option kwvalue :=
  match kw with
  | [] => None
  | (k', v) :: rest => if String.eqb k' k then Some v else kw_lookup rest k
  end.

(** [kwargs.get(k)]; with [False] for default when only the truth of
    the value is used, which is the same test. *)
Definition kw_get (kw : kwargs) (k : string) : kwvalue :=
  default (KCell CNone) (kw_lookup kw k).

(** [v is None] and [bool(v)] *)
Definition kw_is_None (v : kwvalue) : bool :=
  match v with
  | KCell CNone => true
  | _ => false
  end.

Definition kw_truthy (v : kwvalue) : bool :=
  match v with
  | KCell c => truthy c
  | KLine _ => true
  | KList l => negb (Nat.eqb (List.length l) 0)
  end.

(** [v.name] *)
Definition kw_name (v : kwvalue) : result string :=
  match v with
  | KLine b => Ok (beamline_name b)
  | _ => Raise (AttributeError "name")
  end.

(** [for p in v]: a list gives its items, a str its characters,
    anything else is not iterable. *)
Definition kw_iter (v : kwvalue) : result (list cell) :=
  match v with
  | KList l => Ok l
  | KCell (CStr s) => Ok (map (fun a => CStr (String a "")) (list_ascii_of_string s))
  | _ => Raise (TypeError "object is not iterable")
  end.

(** What [misalign] is handed: a beamline (by [track]) or the list of
    recorded beamlines (by [twiss]). *)
Inductive misalign_target : Type :=
| TBeamline (b : Beamline)
| TBeamlines (l : list Beamline).

(** [target.line] and [target.name] *)
Definition target_line (t : misalign_target) : result DataFrame :=
  match t with
  | TBeamline b => Ok (line b)
  | TBeamlines _ => Raise (AttributeError "line")
  end.

Definition target_name (t : misalign_target) : result string :=
  match t with
  | TBeamline b => Ok (beamline_name b)
  | TBeamlines _ => Raise (AttributeError "name")
  end.

(** [df.query("TYPE != 'MARKER'")]: the rows whose TYPE differs from
    the str; in a table without that column the name is undefined,
    which pandas reports as a NameError. *)
Definition query_not_marker (df : DataFrame) : result (list Series) :=
  if bool_decide ("TYPE" ∈ columns df) then
    Ok (List.filter (fun r => negb (cell_eqb (get r "TYPE") (CStr "MARKER"))) (rows df))
  else Raise (NameError "TYPE").

Section Commands.
Variable str_of_number : Q -> string.
Variable madx_syntax : string -> string.
Variable str_format : string -> list arg -> string.
(** [str(v)] of a beamline and of a list. *)
Variable str_of_beamline : Beamline -> string.
Variable str_of_list : list cell -> string.

(** ["{}".format(v)] and ["%s" % v] *)
Definition format_kwvalue (v : kwvalue) : string :=
  match v with
  | KCell c => format_cell str_of_number c
  | KLine b => str_of_beamline b
  | KList l => str_of_list l
  end.

(** A keyword value handed to a template. *)
Definition kw_arg (v : kwvalue) : arg :=
  match v with
  | KCell c => ACell c
  | KLine b => AObject (str_of_beamline b)
  | KList l => AObject (str_of_list l)
  end.

Definition beam (line_name : string) : M unit :=
  _add_input madx_syntax str_format "beam" [];;
  use_sequence madx_syntax str_format line_name.

Definition rbarc : M unit :=
  _add_input madx_syntax str_format "rbarc" [].

Definition show_beam : M unit :=
  _add_input madx_syntax str_format "show_beam" [].

Definition save_beta (kw : gmap string cell) : M unit :=
  _add_input madx_syntax str_format "save_beta"
    [ACell (default (CStr "BETA0") (kw !! "name"));
     ACell (default (CStr "#s") (kw !! "place"))].

Definition stop : M unit :=
  _add_input madx_syntax str_format "stop" [].

Definition survey (kw : gmap string cell) : M unit :=
  (if truthy (default CNone (kw !! "start")) then
     raw "SEQEDIT, SEQUENCE=BEAMLINE;";;
     raw ("CYCLE, START=" +:+ format_cell str_of_number (default CNone (kw !! "start"))
          +:+ ";");;
     raw "ENDEDIT;";;
     raw "USE, SEQUENCE=BEAMLINE;"
   else ret tt);;
  _add_input madx_syntax str_format "survey" [].

(** The option string of the twiss command: [",%s=%s" % (k, v)] for
    every item whose key is not in [skip], in the order given. *)
Fixpoint twiss_options (skip : list string) (kw : kwargs) : string :=
  match kw with
  | [] => ""
  | (k, v) :: rest =>
      (if bool_decide (k ∈ skip) then ""
       else "," +:+ k +:+ "=" +:+ format_kwvalue v)
      +:+ twiss_options skip rest
  end.

Definition sectormap (kw : kwargs) : M unit :=
  if kw_is_None (kw_get kw "line") then
    raise (MadxException "A beamline must be provided.")
  else
    (if kw_truthy (kw_get kw "start") then
       raw ("SEQEDIT, SEQUENCE=" +:+ format_kwvalue (kw_get kw "name") +:+ ";");;
       (if kw_truthy (kw_get kw "reflect") then
          raw "FLATTEN;";;
          raw "REFLECT;"
        else ret tt);;
       raw ("CYCLE, START=" +:+ format_kwvalue (kw_get kw "start") +:+ ";");;
       raw "ENDEDIT;";;
       raw ("USE, SEQUENCE=" +:+ format_kwvalue (kw_get kw "name") +:+ ";")
     else ret tt);;
    places <- lift (kw_iter (kw_get kw "places"));;
    for_each places (fun p =>
      raw ("SELECT, FLAG=sectormap, range='" +:+ format_cell str_of_number p +:+ "';"));;
    let options :=
      twiss_options ["ptc"; "start"; "places"; "name"; "line"; "reflect"] kw in
    _add_input madx_syntax str_format "twiss_beamline"
      [kw_arg (default (KCell (CStr "twiss.outx")) (kw_lookup kw "file"));
       ACell (CStr options)].

Definition _Madx__madx_twiss (kw : kwargs) : M unit :=
  if kw_is_None (kw_get kw "line") then
    raise (MadxException "A beamline must be provided.")
  else
    (if kw_truthy (kw_get kw "start") then
       name <- lift (kw_name (kw_get kw "line"));;
       raw ("SEQEDIT, SEQUENCE=" +:+ name +:+ ";");;
       raw ("CYCLE, START=" +:+ format_kwvalue (kw_get kw "start") +:+ ";");;
       raw "ENDEDIT;";;
       name <- lift (kw_name (kw_get kw "line"));;
       raw ("USE, SEQUENCE=" +:+ name +:+ ";")
     else ret tt);;
    raw "SELECT, FLAG=sectormap, range='Q3E';";;
    raw "SELECT, FLAG=sectormap, range='P2E';";;
    let options := twiss_options ["ptc"; "start"; "line"] kw in
    _add_input madx_syntax str_format "twiss_beamline"
      [kw_arg (default (KCell (CStr "twiss.outx")) (kw_lookup kw "file"));
       ACell (CStr options)].

Definition _Madx__ptc_twiss (kw : kwargs) : M unit :=
  (if kw_truthy (kw_get kw "fringe") then raw "PTC_SETSWITCH, FRINGE=True;"
   else ret tt);;
  _add_input madx_syntax str_format "ptc_create_universe" [];;
  _add_input madx_syntax str_format "ptc_create_layout"
    [py_False; ACell (CNum 1); ACell (CNum 6); ACell (CNum 5); py_True;
     from_option kw_arg py_False (kw_lookup kw "fringe")];;
  (if kw_truthy (kw_get kw "misalignment") then
     _add_input madx_syntax str_format "ptc_misalign" []
   else ret tt);;
  (if kw_truthy (kw_get kw "line") then
     _add_input madx_syntax str_format "ptc_twiss"
       [kw_arg (default (KCell (CStr "ptc_twiss.outx")) (kw_lookup kw "file"))]
   else
     _add_input madx_syntax str_format "ptc_twiss_beamline"
       [kw_arg (default (KCell (CStr "ptc_twiss.outx")) (kw_lookup kw "file"))]);;
  _add_input madx_syntax str_format "ptc_end" [].

(** [beamline.line.query(...).apply(f, axis=1)]: the setup command of
    each row that is not a marker, in row order. *)
Definition _Madx__add_misalignment_element (beamline : misalign_target) : M unit :=
  table <- lift (target_line beamline);;
  selected <- lift (query_not_marker table);;
  for_each selected (fun r =>
    type <- lift (getitem r "TYPE");;
    _add_input madx_syntax str_format "mad_misalign_setup"
      [ACell type;
       ACell (nan_to_num (get_default r "DELTAX" (CNum 0)));
       ACell (nan_to_num (get_default r "DELTAY" (CNum 0)));
       ACell (nan_to_num (get_default r "DELTAS" (CNum 0)));
       ACell (nan_to_num (get_default r "DELTAPHI" (CNum 0)));
       ACell (nan_to_num (get_default r "DELTATHETA" (CNum 0)))]).

Definition misalign (beamline : misalign_target) : M unit :=
  _add_input madx_syntax str_format "misalign_option" [];;
  _Madx__add_misalignment_element beamline;;
  name <- lift (target_name beamline);;
  raw ("USE, SEQUENCE=" +:+ name +:+ ";").

(** [twiss] hands [misalign] the list [self._beamlines]. *)
Definition twiss (kw : kwargs) : M unit :=
  (if kw_truthy (kw_get kw "misalignment") then
     self <- read;;
     misalign (TBeamlines (_beamlines self))
   else ret tt);;
  if kw_truthy (kw_get kw "ptc") then _Madx__ptc_twiss kw
  else _Madx__madx_twiss kw.

Definition _Madx__generate_observation_points_ptc (e : Series) (length : cell) : M unit :=
  at_exit <- lift (getitem e "AT_EXIT");;
  if negb (cell_eqb at_exit length) then
    class <- lift (getitem e "CLASS");;
    if cell_eqb class (CStr "MARKER") then
      _add_input madx_syntax str_format "ptc_observe" [ACell (CStr (name e))]
    else ret tt
  else ret tt.

Definition _Madx__ptc_track (particles : DataFrame) (beamline : Beamline)
    (kw : gmap string cell) : M unit :=
  if (List.length (rows particles) =? 0)%nat then
    print "No particles to track... Doing nothing."
  else
    _add_input madx_syntax str_format "ptc_create_universe" [];;
    _add_input madx_syntax str_format "ptc_create_layout"
      [py_False; ACell (CNum 2); ACell (CNum 6); ACell (CNum 10); py_True;
       from_option ACell py_False (kw !! "fringe")];;
    (if truthy (default CNone (kw !! "misalignment")) then
       _add_input madx_syntax str_format "ptc_misalign" []
     else ret tt);;
    _Madx__add_particles_for_tracking madx_syntax str_format particles true;;
    for_each (rows (line beamline)) (fun e =>
      _Madx__generate_observation_points_ptc e (beamline_length beamline));;
    _add_input madx_syntax str_format "ptc_track"
      [ACell (CNum 5); ACell (CNum 0); py_False; py_True; ACell (CNum 1);
       py_True; py_True; ACell (CStr "ptctrack"); ACell (CStr ".tfs")];;
    _add_input madx_syntax str_format "ptc_track_end" [];;
    _add_input madx_syntax str_format "ptc_end" [].

(** The PTC variant is the default: [kwargs.get('ptc', True)]. *)
Definition track (particles : DataFrame) (beamline : Beamline)
    (kw : gmap string cell) : M unit :=
  (if truthy (default CNone (kw !! "start")) then
     raw ("SEQEDIT, SEQUENCE=" +:+ beamline_name beamline +:+ ";");;
     raw ("CYCLE, START=" +:+ format_cell str_of_number (default CNone (kw !! "start"))
          +:+ ";");;
     raw "ENDEDIT;";;
     raw ("USE, SEQUENCE=" +:+ beamline_name beamline +:+ ";")
   else ret tt);;
  (if truthy (default CNone (kw !! "misalignment")) then misalign (TBeamline beamline)
   else ret tt);;
  if from_option truthy true (kw !! "ptc") then
    _Madx__ptc_track particles beamline kw
  else
    _Madx__madx_track str_of_number madx_syntax str_format particles beamline kw.

End Commands.

(** *** What a command builder may change *)

(** [self'] differs from [self] by text appended to the buffer, by
    beamlines recorded or re-ordered and by lines printed: nothing was
    removed from the buffer, no subprocess was started and the results
    of the last run are untouched. *)
Definition only_appends (self self' : Madx) : Prop :=
  (exists text, _input self' = _input self +:+ text)
  /\ spawned self' = spawned self
  /\ _output self' = _output self
  /\ _warnings self' = _warnings self
  /\ _fatals self' = _fatals self
  /\ _last_context self' = _last_context self
  /\ _exec self' = _exec self.

(** A method body that never raises. *)
Definition returns (m : M unit) : Prop :=
  forall self, snd (m self) = Ok tt.

(** A method body that only appends, whether it returns or raises. *)
Definition builder {A} (m : M A) : Prop :=
  forall self, only_appends self (fst (m self)).

End MadXCommands.

(** ** Sample calls of the command builders *)

Module MadXCommandSamples.
Import MadX MadXCommands.

Definition sample_str_of_list (l : list cell) : string := "[...]".

Definition no_particles : DataFrame :=
  {| sequence_name := ""; sequence_length := CNone;
     columns := ["X"; "PX"; "Y"; "PY"; "DPP"]; rows := [] |}.

Definition sample_line : kwvalue := KLine (sample_beamline (CNum 10)).

Definition sample_places : kwvalue := KList [CStr "Q1"; CStr "Q2"].

End MadXCommandSamples.

(** ** The template engine on the text the wrapper emits *)

Module Jinja.
Import MadX MadXCommands.

(** Modelled from the spec: the substitution engine (jinja2) is not
    among the sources.  This is its rendering of the simple
    named-variable substitutions the spec describes: text in which
    every [{{ ... }}] holds a variable name, alone or followed by
    [or] and a default in single quotes.  A [{{] that no [}}] closes
    is a syntax error of the template.  [None] stands for a text
    outside this fragment, on which nothing is said. *)

Definition is_letter (a : ascii) : bool :=
  let n := nat_of_ascii a in
  ((65 <=? n) && (n <=? 90) || (97 <=? n) && (n <=? 122))%nat%bool.

Definition is_digit (a : ascii) : bool :=
  let n := nat_of_ascii a in ((48 <=? n) && (n <=? 57))%nat%bool.

Definition is_name_start (a : ascii) : bool :=
  (is_letter a || Ascii.eqb a "_"%char)%bool.

Definition is_name_char (a : ascii) : bool :=
  (is_name_start a || is_digit a)%bool.

Fixpoint all_chars (p : ascii -> bool) (s : string) : bool :=
  match s with
  | EmptyString => true
  | String a rest => (p a && all_chars p rest)%bool
  end.

(** The words of the expression language, the names the engine binds
    by itself and those it gives a meaning of its own inside a
    template: none of them is taken here as a variable read from the
    context. *)
Definition reserved_names : list string :=
  ["and"; "or"; "not"; "in"; "is"; "if"; "else";
   "true"; "false"; "none"; "True"; "False"; "None";
   "range"; "dict"; "lipsum"; "cycler"; "joiner"; "namespace";
   "self"; "super"; "loop"; "caller"; "varargs"; "kwargs"].

Definition is_variable_name (s : string) : bool :=
  match s with
  | EmptyString => false
  | String a rest =>
      (is_name_start a && all_chars is_name_char rest
       && negb (bool_decide (s ∈ reserved_names)))%bool
  end.

Inductive expression : Type :=
| Name (n : string)                   (* {{ n }} *)
| NameOr (n : string) (d : string).   (* {{ n or 'd' }} *)

Fixpoint skip_spaces (s : string) : string :=
  match s with
  | String a rest => if Ascii.eqb a " "%char then skip_spaces rest else s
  | EmptyString => EmptyString
  end.

Fixpoint span (p : ascii -> bool) (s : string) : string * string :=
  match s with
  | String a rest =>
      if p a then let '(h, t) := span p rest in (String a h, t)
      else (EmptyString, s)
  | EmptyString => (EmptyString, EmptyString)
  end.

Fixpoint strip_prefix (p s : string) : option string :=
  match p, s with
  | EmptyString, _ => Some s
  | String a p', String b s' => if Ascii.eqb a b then strip_prefix p' s' else None
  | String _ _, EmptyString => None
  end.

Definition is_literal_char (a : ascii) : bool :=
  negb (Ascii.eqb a "'"%char || Ascii.eqb a "\"%char)%bool.

(** What stands between [{{] and [}}]. *)
Definition parse_expression (body : string) : option expression :=
  let '(n, rest) := span is_name_char (skip_spaces body) in
  if negb (is_variable_name n) then None
  else
    match skip_spaces rest with
    | EmptyString => Some (Name n)
    | rest =>
        rest ← strip_prefix "or" rest;
        rest ← strip_prefix "'" (skip_spaces rest);
        let '(d, rest) := span is_literal_char rest in
        rest ← strip_prefix "'" rest;
        match skip_spaces rest with
        | EmptyString => Some (NameOr n d)
        | _ => None
        end
    end.

Section Rendering.
Variable str_of_number : Q -> string.

(** The text of the value of an expression: a variable the context
    does not bind is undefined, which prints as nothing and counts as
    false. *)
Definition eval (ctx : context) (e : expression) : string :=
  match e with
  | Name n =>
      match ctx !! n with
      | Some c => format_cell str_of_number c
      | None => ""
      end
  | NameOr n d =>
      match ctx !! n with
      | Some c => if truthy c then format_cell str_of_number c else d
      | None => d
      end
  end.

Inductive mode : Type :=
| InText
| InExpression (body : string).

Definition emit (s : string) (r : option (result string)) : option (result string) :=
  match r with
  | Some (Ok t) => Some (Ok (s +:+ t))
  | other => other
  end.

Fixpoint scan (ctx : context) (m : mode) (s : string) : option (result string) :=
  match s with
  | EmptyString =>
      match m with
      | InText => Some (Ok "")
      | InExpression _ => Some (Raise TemplateSyntaxError)
      end
  | String a rest =>
      match m with
      | InText =>
          if Ascii.eqb a "{"%char then
            match rest with
            | String b rest' =>
                if Ascii.eqb b "{"%char then scan ctx (InExpression "") rest'
                else if (Ascii.eqb b "%"%char || Ascii.eqb b "#"%char)%bool then None
                else emit (String a "") (scan ctx InText rest)
            | EmptyString => Some (Ok (String a ""))
            end
          else if Ascii.eqb a "013"%char then None
          else emit (String a "") (scan ctx InText rest)
      | InExpression body =>
          if Ascii.eqb a "}"%char then
            match rest with
            | String b rest' =>
                if Ascii.eqb b "}"%char then
                  e ← parse_expression body;
                  emit (eval ctx e) (scan ctx InText rest')
                else scan ctx (InExpression (body +:+ String a "")) rest
            | EmptyString => Some (Raise TemplateSyntaxError)
            end
          else scan ctx (InExpression (body +:+ String a "")) rest
      end
  end.

(** The engine drops one newline at the end of a template. *)
Fixpoint strip_trailing_newline (s : string) : string :=
  match s with
  | EmptyString => EmptyString
  | String a rest =>
      match rest with
      | EmptyString => if Ascii.eqb a "010"%char then EmptyString else s
      | String _ _ => String a (strip_trailing_newline rest)
      end
  end.

(** [jinja2.Template(text).render(ctx)] *)
Definition render (text : string) (ctx : context) : option (result string) :=
  scan ctx InText (strip_trailing_newline text).

End Rendering.

End Jinja.

(** ** madx/madx.py: [run] on a buffer the template engine may reject *)

Module MadXRendering.
Import MadX.

Section Methods.
Variable madx_syntax : string -> string.
(** [jinja2.Template(text).render(context)]: the rendered text, or the
    exception the template engine raises on a text it cannot parse or
    evaluate. *)
Variable jinja2_render : string -> context -> result string.
Variable resolve_executable : string -> option string.
Variable communicate : string -> string -> string.

(** [run] with the failure of the rendering, which comes after the
    stop command is appended and before the executable is looked for.
    [MadX.run] is this function for an engine that renders every
    buffer. *)
Definition run (kwargs : run_kwargs) : M unit :=
  append_input (madx_syntax "stop");;
  self <- read;;
  let ctx := default ∅ (kw_context kwargs) in
  let debug := default 0%Z (kw_debug kwargs) in
  template_input <- lift (jinja2_render (_input self) ctx);;
  (if (2 <=? debug)%Z then print template_input else ret tt);;
  exec <- _get_exec resolve_executable;;
  match exec with
  | None =>
      raise (MadxException "Can't run MADX if no valid path and executable are defined.")
  | Some path =>
      let output := communicate path template_input in
      update (fun self =>
        set_run_result self path template_input output
          (List.filter is_warning (split_on "010"%char output))
          (List.filter is_fatal (split_on "010"%char output))
          ctx);;
      if negb (debug =? 0)%Z then print output else ret tt
  end.

End Methods.

(** A renderer for the samples: the fragment of the template engine
    modelled above, a text outside of it being left as it is. *)
Definition fragment_render (text : string) (ctx : context) : result string :=
  match Jinja.render sample_str text ctx with
  | Some outcome => outcome
  | None => Ok text
  end.

(** An instance whose buffer holds a substitution that is not closed. *)
Definition sample_unclosed : Madx :=
  set_input sample_instance ("IQ1:={{ IQ1 or '0.0' ;" +:+ nl).

End MadXRendering.

(** * Properties of the transfer matrices *)

Module TransferFacts.
Import Transfer.
Local Open Scope R_scope.

Lemma float_eq_true x y : x = y -> float_eq x y = true.
Proof. intros ->. unfold float_eq. destruct (Req_dec_T y y); congruence. Qed.

Lemma float_eq_false x y : x <> y -> float_eq x y = false.
Proof. intros H. unfold float_eq. destruct (Req_dec_T x y); congruence. Qed.

Lemma float_gt_true x y : x > y -> float_gt x y = true.
Proof. intros H. unfold float_gt. destruct (Rgt_dec x y); [reflexivity | contradiction]. Qed.

Lemma float_gt_false x y : x <= y -> float_gt x y = false.
Proof. intros H. unfold float_gt. destruct (Rgt_dec x y); [lra | reflexivity]. Qed.

Lemma float_lt_true x y : x < y -> float_lt x y = true.
Proof. intros H. unfold float_lt. destruct (Rlt_dec x y); [reflexivity | contradiction]. Qed.

Lemma array_item_Some (e : list R) i x : e !! i = Some x -> array_item e i = Ok x.
Proof. intros H. unfold array_item. rewrite H. reflexivity. Qed.

Section Facts.
Variables INDEX_ANGLE INDEX_LENGTH INDEX_E1 INDEX_E2 INDEX_K1 : nat.

(** C5. For an element whose bend angle is exactly zero, [sbend]
    returns what [drift] returns on the same element: the identity
    with [x += L x'] and [y += L y'], the fifth coordinate unchanged. *)
Theorem sbend_zero_angle_is_drift (e : list R) :
  e !! INDEX_ANGLE = Some 0 ->
  sbend INDEX_ANGLE INDEX_LENGTH INDEX_E1 INDEX_E2 e = drift INDEX_LENGTH e
  /\ forall L, e !! INDEX_LENGTH = Some L ->
       sbend INDEX_ANGLE INDEX_LENGTH INDEX_E1 INDEX_E2 e = Ok (drift_matrix L).
Proof.
  intros Ha. unfold sbend. rewrite (array_item_Some _ _ _ Ha). cbn [rbind].
  rewrite float_eq_true by reflexivity. split; [reflexivity|].
  intros L HL. unfold drift. rewrite (array_item_Some _ _ _ HL). reflexivity.
Qed.

Lemma fringe_coefficient (L theta a : R) :
  (- 1 / (L / theta)) * tan a = - tan a / (L / theta).
Proof. unfold Rdiv. ring. Qed.

(** C3. For a sector bend of nonzero angle [theta], nonzero length
    [L] and face angles [e1], [e2]: the transfer matrix is the core
    bend matrix when both face angles are zero, and otherwise the
    product exit edge . core . entrance edge of the thin-edge matrices
    of coefficients [- tan e2 / (L / theta)] and
    [- tan e1 / (L / theta)].  With [theta] and [L] both nonzero no
    quotient of the source has a zero divisor, so that every entry is
    the real number the formula names. *)
Theorem sbend_matrix (e : list R) (theta L e1 e2 : R) :
  e !! INDEX_ANGLE = Some theta ->
  e !! INDEX_LENGTH = Some L ->
  e !! INDEX_E1 = Some e1 ->
  e !! INDEX_E2 = Some e2 ->
  theta <> 0 ->
  L <> 0 ->
  (e1 = 0 /\ e2 = 0 ->
     sbend INDEX_ANGLE INDEX_LENGTH INDEX_E1 INDEX_E2 e = Ok (core_bend theta L))
  /\ (~ (e1 = 0 /\ e2 = 0) ->
     sbend INDEX_ANGLE INDEX_LENGTH INDEX_E1 INDEX_E2 e =
       Ok (matmul (matmul (thin_edge (- tan e2 / (L / theta))) (core_bend theta L))
                  (thin_edge (- tan e1 / (L / theta))))).
Proof.
  intros Ha HL H1 H2 Hne _. unfold sbend.
  rewrite (array_item_Some _ _ _ Ha), (array_item_Some _ _ _ HL),
    (array_item_Some _ _ _ H1), (array_item_Some _ _ _ H2).
  cbn [rbind]. rewrite (float_eq_false _ _ Hne). cbn zeta.
  split.
  - intros [-> ->]. rewrite !float_eq_true by reflexivity. reflexivity.
  - intros Hn.
    assert (float_eq e1 0 && float_eq e2 0 = false) as ->.
    { unfold float_eq. destruct (Req_dec_T e1 0), (Req_dec_T e2 0); try reflexivity.
      exfalso. apply Hn. split; assumption. }
    rewrite !fringe_coefficient. reflexivity.
Qed.

Lemma quadrupole_focusing (e : list R) (k L : R) :
  e !! INDEX_LENGTH = Some L ->
  e !! INDEX_K1 = Some k ->
  k > 0 ->
  quadrupole INDEX_LENGTH INDEX_K1 e =
    Ok [ [cos (sqrt k * L); (1 / sqrt k) * sin (sqrt k * L); 0; 0; 0];
         [- sqrt k * sin (sqrt k * L); cos (sqrt k * L); 0; 0; 0];
         [0; 0; cosh (sqrt k * L); (1 / sqrt k) * sinh (sqrt k * L); 0];
         [0; 0; sqrt k * sinh (sqrt k * L); cosh (sqrt k * L); 0];
         [0; 0; 0; 0; 1] ].
Proof.
  intros HL Hk Hpos. unfold quadrupole.
  rewrite (array_item_Some _ _ _ HL), (array_item_Some _ _ _ Hk). cbn [rbind].
  rewrite (float_gt_true _ _ Hpos). reflexivity.
Qed.

Lemma quadrupole_defocusing (e : list R) (k L : R) :
  e !! INDEX_LENGTH = Some L ->
  e !! INDEX_K1 = Some (- k) ->
  k > 0 ->
  quadrupole INDEX_LENGTH INDEX_K1 e =
    Ok [ [cosh (sqrt k * L); (1 / sqrt k) * sinh (sqrt k * L); 0; 0; 0];
         [sqrt k * sinh (sqrt k * L); cosh (sqrt k * L); 0; 0; 0];
         [0; 0; cos (sqrt k * L); (1 / sqrt k) * sin (sqrt k * L); 0];
         [0; 0; - sqrt k * sin (sqrt k * L); cos (sqrt k * L); 0];
         [0; 0; 0; 0; 1] ].
Proof.
  intros HL Hk Hpos. unfold quadrupole.
  rewrite (array_item_Some _ _ _ HL), (array_item_Some _ _ _ Hk). cbn [rbind].
  rewrite float_gt_false by lra. rewrite float_lt_true by lra. cbv zeta.
  replace (- k * -1) with k by ring. reflexivity.
Qed.

Lemma scaled_by_inverse (kappa x : R) : (1 / kappa) * x = x / kappa.
Proof. unfold Rdiv. ring. Qed.

(** C4. For a quadrupole of strength [k > 0] and length [L], entries
    (1,1) and (2,2) are [cos (sqrt k * L)], the horizontal block is
    trigonometric and the vertical block hyperbolic; for strength
    [- k] and the same length the two blocks are exchanged. *)
Theorem quadrupole_blocks (e e' : list R) (k L : R) :
  e !! INDEX_LENGTH = Some L ->
  e !! INDEX_K1 = Some k ->
  e' !! INDEX_LENGTH = Some L ->
  e' !! INDEX_K1 = Some (- k) ->
  k > 0 ->
  exists m m' : matrix,
    quadrupole INDEX_LENGTH INDEX_K1 e = Ok m
    /\ quadrupole INDEX_LENGTH INDEX_K1 e' = Ok m'
    /\ entry m 0 0 = cos (sqrt k * L)
    /\ entry m 1 1 = cos (sqrt k * L)
    /\ horizontal_block m = trig_block (sqrt k) L
    /\ vertical_block m = hyp_block (sqrt k) L
    /\ horizontal_block m' = hyp_block (sqrt k) L
    /\ vertical_block m' = trig_block (sqrt k) L
    /\ horizontal_block m' = vertical_block m
    /\ vertical_block m' = horizontal_block m.
Proof.
  intros HL Hk HL' Hk' Hpos.
  eexists _, _.
  split; [apply (quadrupole_focusing e k L HL Hk Hpos) |].
  split; [apply (quadrupole_defocusing e' k L HL' Hk' Hpos) |].
  unfold horizontal_block, vertical_block, block2, entry, trig_block, hyp_block.
  cbn [nth]. rewrite !scaled_by_inverse.
  repeat split; reflexivity.
Qed.

End Facts.

(** *** The theorems at a sample element *)

Lemma sbend_zero_angle_is_drift_witness :
  sbend 0 1 2 3 [0; 2; 0; 0; 3] = drift 1 [0; 2; 0; 0; 3]
  /\ forall L, [0; 2; 0; 0; 3] !! 1%nat = Some L ->
       sbend 0 1 2 3 [0; 2; 0; 0; 3] = Ok (drift_matrix L).
Proof. apply (sbend_zero_angle_is_drift 0 1 2 3 [0; 2; 0; 0; 3]). reflexivity. Defined.

Lemma sbend_matrix_witness :
  (1 = 0 /\ 0 = 0 -> sbend 0 1 2 3 [1; 2; 1; 0; 3] = Ok (core_bend 1 2))
  /\ (~ (1 = 0 /\ 0 = 0) ->
      sbend 0 1 2 3 [1; 2; 1; 0; 3] =
        Ok (matmul (matmul (thin_edge (- tan 0 / (2 / 1))) (core_bend 1 2))
                   (thin_edge (- tan 1 / (2 / 1))))).
Proof.
  apply (sbend_matrix 0 1 2 3 [1; 2; 1; 0; 3] 1 2 1 0); try reflexivity; lra.
Defined.

Lemma quadrupole_blocks_witness :
  exists m m' : matrix,
    quadrupole 1 4 [0; 2; 0; 0; 3] = Ok m
    /\ quadrupole 1 4 [0; 2; 0; 0; - 3] = Ok m'
    /\ entry m 0 0 = cos (sqrt 3 * 2)
    /\ entry m 1 1 = cos (sqrt 3 * 2)
    /\ horizontal_block m = trig_block (sqrt 3) 2
    /\ vertical_block m = hyp_block (sqrt 3) 2
    /\ horizontal_block m' = hyp_block (sqrt 3) 2
    /\ vertical_block m' = trig_block (sqrt 3) 2
    /\ horizontal_block m' = vertical_block m
    /\ vertical_block m' = horizontal_block m.
Proof.
  apply (quadrupole_blocks 1 4 [0; 2; 0; 0; 3] [0; 2; 0; 0; - 3] 3 2);
    try reflexivity.
  lra.
Defined.

End TransferFacts.

(** * Properties of the template engine *)

Module JinjaFacts.
Import MadX MadXCommands Jinja.






Section Facts.
Variable str_of_number : Q -> string.
Variable ctx : context.









End Facts.
End JinjaFacts.

(** * Properties of the MAD-X wrapper *)

Module MadXFacts.
Import MadX.

(** *** The position order *)



Section SortFacts.
Variable by_ : string.











End SortFacts.

(** *** Cells and rows *)

Lemma cell_in_spec c l : cell_in c l = true <-> exists s, c = CStr s /\ s ∈ l.
Proof.
  unfold cell_in. rewrite existsb_exists. split.
  - intros (x & Hin & Heq). apply in_map_iff in Hin as (s & <- & Hs).
    exists s. split; [| apply list_elem_of_In, Hs].
    destruct c; simpl in Heq; try discriminate.
    apply String.eqb_eq in Heq. congruence.
  - intros (s & -> & Hs). exists (CStr s). split.
    + apply in_map, list_elem_of_In, Hs.
    + simpl. apply String.eqb_refl.
Qed.

Lemma getitem_lookup e k v : cells e !! k = Some v -> getitem e k = Ok v.
Proof. intros H. unfold getitem. rewrite H. reflexivity. Qed.

Lemma get_lookup e k v : cells e !! k = Some v -> get e k = v.
Proof. intros H. unfold get. rewrite H. reflexivity. Qed.

Lemma get_not_None e k : is_None (get e k) = false -> cells e !! k = Some (get e k).
Proof. unfold get. destruct (cells e !! k); simpl; [reflexivity | discriminate]. Qed.

Lemma notnull_not_None c : pd_notnull c = true -> is_None c = false.
Proof. destruct c; simpl; intros H; try discriminate H; reflexivity. Qed.





Section TranslationFacts.
Variable str_of_number : Q -> string.

(** The listed properties of a row always format: a property is
    looked up only after [e.get] has found it non-null. *)
Lemma properties_format e l :
  exists props,
    mapM (fun p => v <-? getitem e p; Ok (p +:+ "=" +:+ format_cell str_of_number v))
         (List.filter (fun p => pd_notnull (get e p)) l) = Ok props.
Proof.
  induction l as [| p l [props IH]]; [eexists; reflexivity |].
  cbn [List.filter].
  destruct (pd_notnull (get e p)) eqn:Hp; [| exists props; exact IH].
  cbn [mapM]. rewrite (getitem_lookup _ _ _ (get_not_None _ _ (notnull_not_None _ Hp))).
  cbn [rbind]. rewrite IH. cbn [rbind]. eexists; reflexivity.
Qed.

(** An angle field that holds a number, a null or nothing never makes
    the finiteness test raise. *)
Lemma present_and_finite_numeric e k :
  is_str (get e k) = false -> exists b, present_and_finite e k = Ok b.
Proof.
  intros Hs. unfold present_and_finite.
  destruct (is_None (get e k)) eqn:Hn; [eexists; reflexivity |].
  rewrite (getitem_lookup _ _ _ (get_not_None _ _ Hn)). cbn [rbind].
  destruct (get e k); simpl in *; try discriminate; eexists; reflexivity.
Qed.

Lemma present_and_finite_lookup e k :
  present_and_finite e k = Ok true -> getitem e k = Ok (get e k).
Proof.
  unfold present_and_finite.
  destruct (is_None (get e k)) eqn:Hn; [discriminate |].
  intros _. apply getitem_lookup, get_not_None, Hn.
Qed.

(** C7. An element whose class is not one of the eight supported
    classes translates to the empty string. *)
Theorem unsupported_class_emits_nothing (e : Series) (c : cell) :
  cells e !! "CLASS" = Some c ->
  (forall s, c = CStr s -> s ∉ SUPPORTED_CLASSES) ->
  element_to_mad str_of_number e = Ok "".
Proof.
  intros Hc Hout. unfold element_to_mad, getattr. rewrite Hc. cbn [rbind].
  destruct (cell_in c SUPPORTED_CLASSES) eqn:Hin; [| reflexivity].
  apply cell_in_spec in Hin as (s & Hs & Hmem).
  exfalso. exact (Hout s Hs Hmem).
Qed.

(** C10. An element of a supported class with a non-null APERTYPE and
    no APERTURE field does not translate: the translation raises a
    KeyError, on APERTURE as soon as the LENGTH field exists. *)
Theorem apertype_without_aperture_raises (e : Series) (cls : string) :
  cells e !! "CLASS" = Some (CStr cls) ->
  cls ∈ SUPPORTED_CLASSES ->
  pd_notnull (get e "APERTYPE") = true ->
  cells e !! "APERTURE" = None ->
  numeric_angles e ->
  exists k, element_to_mad str_of_number e = Raise (KeyError k)
            /\ (is_Some (cells e !! "LENGTH") -> k = "APERTURE").
Proof.
  intros Hc Hsup Htype Hno [Hb Ha].
  unfold element_to_mad, getattr. rewrite Hc. cbn [rbind].
  assert (cell_in (CStr cls) SUPPORTED_CLASSES = true) as ->.
  { apply cell_in_spec. eauto. }
  cbn [negb].
  destruct (present_and_finite_numeric e "BENDING_ANGLE" Hb) as [b Hpb].
  rewrite Hpb. cbn [rbind].
  destruct b.
  2: destruct (present_and_finite_numeric e "ANGLE" Ha) as [a Hpa];
     rewrite Hpa; cbn [rbind]; destruct a.
  1: rewrite (present_and_finite_lookup _ _ Hpb).
  all: cbn [rbind].
  all: destruct (properties_format e SUPPORTED_PROPERTIES) as [props Hprops].
  all: rewrite Hprops; cbn [rbind].
  all: unfold getitem at 1.
  all: destruct (cells e !! "LENGTH") as [len |] eqn:Hlen; cbn [rbind].
  all: try (exists "LENGTH"; split; [reflexivity | intros [x Hx]; discriminate]).
  all: rewrite Htype; unfold getitem at 1; rewrite Hno; cbn [rbind].
  all: exists "APERTURE"; split; reflexivity.
Qed.





End TranslationFacts.
(** *** The wrapper *)

Section MethodFacts.
Variable str_of_number : Q -> string.
Variable madx_syntax : string -> string.
Variable str_format : string -> list arg -> string.
Variable jinja2_render : string -> context -> string.
Variable resolve_executable : string -> option string.
Variable communicate : string -> string -> string.

(** What [run] leaves behind when no executable is resolved: the
    buffer with the stop command, the rendered input on the console
    when the debug level asks for it, and the exception. *)
Lemma run_without_executable (self : Madx) (kwargs : run_kwargs) :
  resolve_executable (_exec self) = None ->
  run madx_syntax jinja2_render resolve_executable communicate kwargs self =
    (let stopped := set_input self (_input self +:+ madx_syntax "stop") in
     if (2 <=? default 0%Z (kw_debug kwargs))%Z then
       set_console stopped
         (console stopped
          ++ [jinja2_render (_input stopped) (default ∅ (kw_context kwargs))])%list
     else stopped,
     Raise (MadxException "Can't run MADX if no valid path and executable are defined.")).
Proof.
  intros Hnone. destruct self as [inp bl ex out warn fat ctx con sp].
  cbn [_exec] in Hnone.
  unfold run, _get_exec, print, append_input.
  unfold bind, update, read, ret, raise.
  cbn [set_input _input _exec].
  destruct (2 <=? default 0%Z (kw_debug kwargs))%Z;
    cbn [set_console set_input _input _exec]; rewrite Hnone; reflexivity.
Qed.

(** What [_attach] leaves behind for a beamline of undefined length. *)
Lemma attach_undefined_length (self : Madx) (beamline : Beamline) :
  pd_isnull (beamline_length beamline) = true ->
  _attach str_of_number beamline self =
    (set_beamlines self (_beamlines self ++ [beamline])%list,
     Raise (SimulatorException "Beamline length not defined.")).
Proof.
  intros Hnull. unfold _attach, bind, Simulator_attach, update, raise.
  rewrite Hnull, orb_true_r. reflexivity.
Qed.

(** C9. When [run] fails for want of an executable, the buffer of the
    instance that comes out of the call is the old buffer followed by
    the stop command. *)
Theorem failed_run_keeps_stop_command (self : Madx) (kwargs : run_kwargs) :
  resolve_executable (_exec self) = None ->
  exists self' m,
    run madx_syntax jinja2_render resolve_executable communicate kwargs self
      = (self', Raise (MadxException m))
    /\ _input self' = _input self +:+ madx_syntax "stop".
Proof.
  intros Hnone. rewrite (run_without_executable _ _ Hnone).
  eexists _, _. split; [reflexivity |].
  cbv zeta. destruct (2 <=? default 0%Z (kw_debug kwargs))%Z; reflexivity.
Qed.

(** The validation of [match]: each missing argument raises before
    the buffer is touched. *)
Lemma match_without_sequence (self : Madx) vary constraints :
  match_ madx_syntax str_format
    {| kw_sequence := None; kw_vary := vary; kw_constraints := constraints |} self
  = (self, Raise (MadxException "A sequence name must be provided.")).
Proof. reflexivity. Qed.

Lemma match_without_vary (self : Madx) seq constraints :
  match_ madx_syntax str_format
    {| kw_sequence := Some seq; kw_vary := None; kw_constraints := constraints |} self
  = (self, Raise (MadxException "A list of length > 0 of parameters must be provided.")).
Proof. reflexivity. Qed.

Lemma match_with_empty_vary (self : Madx) seq constraints :
  match_ madx_syntax str_format
    {| kw_sequence := Some seq; kw_vary := Some []; kw_constraints := constraints |} self
  = (self, Raise (MadxException "A list of length > 0 of parameters must be provided.")).
Proof. reflexivity. Qed.

Lemma match_without_constraints (self : Madx) seq v vary :
  match_ madx_syntax str_format
    {| kw_sequence := Some seq; kw_vary := Some (v :: vary); kw_constraints := None |} self
  = (self, Raise (MadxException "A dictionary of constraints should be provided.")).
Proof. reflexivity. Qed.

(** C1. With a sequence name, a non-empty vary list and a constraints
    mapping all supplied, [match] raises NameError on the unbound name
    [sequence] and leaves the instance, buffer included, as it was: no
    match command is issued. *)
Theorem match_supplied_raises_name_error
    (self : Madx) (seq : string) (v : string) (vary : list string)
    (constraints : gmap string string) :
  match_ madx_syntax str_format
    {| kw_sequence := Some seq; kw_vary := Some (v :: vary);
       kw_constraints := Some constraints |} self
  = (self, Raise (NameError "sequence")).
Proof. reflexivity. Qed.

(** The plain tracking variant on an empty particle set: a notice on
    the console, nothing else. *)
Lemma madx_track_no_particles (self : Madx) n l cols beamline kwargs :
  _Madx__madx_track str_of_number madx_syntax str_format
    {| sequence_name := n; sequence_length := l; columns := cols; rows := [] |}
    beamline kwargs self
  = (set_console self (console self ++ ["No particles to track... Doing nothing."])%list,
     Ok tt).
Proof. reflexivity. Qed.

(** C8. On a non-empty particle set the plain tracking variant thins
    the beamline and issues the track-beamline command, then raises
    AttributeError on [_add_particles_for_tracking]: no particle is
    injected, no observation point is emitted, and the track is
    neither run nor ended. *)
Theorem madx_track_raises_attribute_error
    (self : Madx) (n : string) (l : cell) (cols : list string)
    (p : Series) (ps : list Series) (beamline : Beamline) (kwargs : gmap string cell) :
  _Madx__madx_track str_of_number madx_syntax str_format
    {| sequence_name := n; sequence_length := l; columns := cols; rows := p :: ps |}
    beamline kwargs self
  = (set_input self
       (((((_input self
        +:+ ("SELECT, FLAG=makethin, CLASS=quadrupole, THICK=false, SLICE="
             +:+ format_cell str_of_number
                   (default (CNum 4) (kwargs !! "quadrupole_slices")) +:+ ";" +:+ nl))
        +:+ ("SELECT, FLAG=makethin, CLASS=rbend, THICK=false, SLICE="
             +:+ format_cell str_of_number
                   (default (CNum 4) (kwargs !! "dipole_slices")) +:+ ";" +:+ nl))
        +:+ str_format (madx_syntax "makethin")
              [ACell (CStr (beamline_name beamline));
               ACell (default (CStr "TEAPOT") (kwargs !! "style"))])
        +:+ str_format (madx_syntax "use_sequence")
              [ACell (CStr (beamline_name beamline))])
        +:+ str_format (madx_syntax "track_beamline") []),
     Raise (AttributeError "_add_particles_for_tracking")).
Proof. reflexivity. Qed.

End MethodFacts.

(** *** The wrapper, with the failure of the template engine *)

Section RenderingFacts.
Variable str_of_number : Q -> string.
Variable madx_syntax : string -> string.
Variable jinja2_render : string -> context -> result string.
Variable resolve_executable : string -> option string.
Variable communicate : string -> string -> string.

(** [run] stops at the exception of the template engine, the stop
    command appended; on a buffer that renders it goes on as
    [MadX.run] does with the rendered text. *)
Lemma run_outcome (self : Madx) (kwargs : run_kwargs) :
  MadXRendering.run madx_syntax jinja2_render resolve_executable communicate kwargs self =
    match jinja2_render (_input self +:+ madx_syntax "stop")
            (default ∅ (kw_context kwargs)) with
    | Ok text =>
        run madx_syntax (fun _ _ => text) resolve_executable communicate kwargs self
    | Raise e => (set_input self (_input self +:+ madx_syntax "stop"), Raise e)
    end.
Proof.
  destruct self as [inp bl ex out warn fat ctx con sp].
  unfold MadXRendering.run, run, _get_exec, print, append_input.
  unfold bind, update, read, ret, raise, lift.
  cbn [set_input _input _exec].
  destruct (jinja2_render _ _); reflexivity.
Qed.

(** [MadX.run] is [MadXRendering.run] for an engine that renders every
    buffer. *)
Lemma run_total_renderer (render : string -> context -> string)
    (self : Madx) (kwargs : run_kwargs) :
  MadXRendering.run madx_syntax (fun text ctx => Ok (render text ctx))
    resolve_executable communicate kwargs self
  = run madx_syntax render resolve_executable communicate kwargs self.
Proof. destruct self. reflexivity. Qed.

(** C2 (amended). With no executable resolved, [run] raises and starts
    no subprocess: it raises the configuration error [MadxException]
    when the template engine renders the buffer, and the exception of
    the template engine when it does not, the rendering coming before
    the look for the executable.  Attaching a beamline whose length
    is None or NaN raises a configuration error and starts no
    subprocess either. *)
Theorem configuration_errors_precede_engine :
  (forall (self : Madx) (kwargs : run_kwargs),
     resolve_executable (_exec self) = None ->
     exists self' e,
       MadXRendering.run madx_syntax jinja2_render resolve_executable communicate
         kwargs self = (self', Raise e)
       /\ spawned self' = spawned self
       /\ (forall text,
             jinja2_render (_input self +:+ madx_syntax "stop")
               (default ∅ (kw_context kwargs)) = Ok text ->
             e = MadxException "Can't run MADX if no valid path and executable are defined."
             /\ is_configuration_error e = true)
       /\ (forall e',
             jinja2_render (_input self +:+ madx_syntax "stop")
               (default ∅ (kw_context kwargs)) = Raise e' ->
             e = e'))
  /\ (forall (self : Madx) (beamline : Beamline),
       beamline_length beamline = CNone \/ beamline_length beamline = CNaN ->
       exists self' e,
         _attach str_of_number beamline self = (self', Raise e)
         /\ is_configuration_error e = true
         /\ spawned self' = spawned self).
Proof.
  split.
  - intros self kwargs Hnone. rewrite run_outcome.
    destruct (jinja2_render _ _) as [text | e'].
    + rewrite (run_without_executable _ _ _ _ _ _ Hnone).
      eexists _, _. split; [reflexivity |]. split.
      * cbv zeta. destruct (2 <=? default 0%Z (kw_debug kwargs))%Z; reflexivity.
      * split; [intros _ _; split; reflexivity | intros e0 [=]].
    + eexists _, _. split; [reflexivity |]. split; [reflexivity |].
      split; [intros text [=] | intros e0 [= ->]; reflexivity].
  - intros self beamline Hlen. rewrite attach_undefined_length.
    + eexists _, _. split; [reflexivity |]. split; reflexivity.
    + destruct Hlen as [-> | ->]; reflexivity.
Qed.

End RenderingFacts.

(** *** The model on the sample data *)

Example sample_table_translates :
  snd (sequence_to_mad sample_str sample_table) =
    Ok ("BEAMLINE: SEQUENCE, L=||||||||||, REFER=CENTER;" +:+ nl
        +:+ nl
        +:+ "Q1: QUADRUPOLE, , L=|, AT=||||;" +:+ nl
        +:+ "Q2: QUADRUPOLE, , L=|, AT=|||||||;" +:+ nl
        +:+ "ENDSEQUENCE;" +:+ nl
        +:+ "IQ1:={{ IQ1 or '0.0' }};" +:+ nl
        +:+ "IQ2:={{ IQ2 or '0.0' }};" +:+ nl).
Proof. vm_compute. reflexivity. Qed.

Example sample_table_is_left_sorted :
  map name (rows (fst (sequence_to_mad sample_str sample_table))) = ["D1"; "Q1"; "Q2"].
Proof. vm_compute. reflexivity. Qed.

Example sample_run_reaches_engine :
  let self := fst (run sample_syntax sample_render local_executable sample_engine
                     {| kw_context := None; kw_debug := None |} sample_instance) in
  spawned self = [("/usr/local/bin/madx", "BEAM;STOP;" +:+ nl)]
  /\ _warnings self = ["++++++ warning: unused"; "+++ fatal error"]
  /\ _fatals self = ["+++ fatal error"].
Proof. vm_compute. repeat split; reflexivity. Qed.

Example sample_match_is_validated :
  match_ sample_syntax sample_format
    {| kw_sequence := Some "BEAMLINE"; kw_vary := Some []; kw_constraints := Some ∅ |}
    sample_instance
  = (sample_instance,
     Raise (MadxException "A list of length > 0 of parameters must be provided.")).
Proof. reflexivity. Qed.

(** *** The theorems at the sample data *)

Lemma unsupported_class_emits_nothing_witness :
  element_to_mad sample_str (sample_row "D1" "DRIFT" (CNum 2) CNaN) = Ok "".
Proof.
  apply (unsupported_class_emits_nothing sample_str
           (sample_row "D1" "DRIFT" (CNum 2) CNaN) (CStr "DRIFT")).
  - reflexivity.
  - intros s Hs. injection Hs as <-. apply (bool_decide_eq_false_1 ("DRIFT" ∈ SUPPORTED_CLASSES)). reflexivity.
Defined.

Lemma apertype_without_aperture_raises_witness :
  exists k, element_to_mad sample_str sample_collimator = Raise (KeyError k)
            /\ (is_Some (cells sample_collimator !! "LENGTH") -> k = "APERTURE").
Proof.
  apply (apertype_without_aperture_raises sample_str sample_collimator "COLLIMATOR").
  - reflexivity.
  - apply (bool_decide_eq_true_1 ("COLLIMATOR" ∈ SUPPORTED_CLASSES)). reflexivity.
  - reflexivity.
  - reflexivity.
  - split; reflexivity.
Defined.


(** C2 as it was stated fails on a buffer the template engine
    rejects: no executable is resolved, and the exception that [run]
    raises is the syntax error of the template, not a configuration
    error. *)
Lemma run_raises_template_error_first :
  no_executable (_exec MadXRendering.sample_unclosed) = None
  /\ MadXRendering.run sample_syntax MadXRendering.fragment_render no_executable
       sample_engine {| kw_context := None; kw_debug := None |}
       MadXRendering.sample_unclosed
     = (set_input MadXRendering.sample_unclosed
          (_input MadXRendering.sample_unclosed +:+ sample_syntax "stop"),
        Raise TemplateSyntaxError)
  /\ ~ (exists self' e,
          MadXRendering.run sample_syntax MadXRendering.fragment_render no_executable
            sample_engine {| kw_context := None; kw_debug := None |}
            MadXRendering.sample_unclosed = (self', Raise e)
          /\ is_configuration_error e = true).
Proof.
  assert (MadXRendering.run sample_syntax MadXRendering.fragment_render no_executable
            sample_engine {| kw_context := None; kw_debug := None |}
            MadXRendering.sample_unclosed
          = (set_input MadXRendering.sample_unclosed
               (_input MadXRendering.sample_unclosed +:+ sample_syntax "stop"),
             Raise TemplateSyntaxError)) as Hrun by (vm_compute; reflexivity).
  split; [reflexivity |]. split; [exact Hrun |].
  intros (self' & e & He & Hkind). rewrite Hrun in He.
  injection He as _ <-. discriminate Hkind.
Qed.

Lemma configuration_errors_precede_engine_witness :
  (exists self' e,
     MadXRendering.run sample_syntax MadXRendering.fragment_render no_executable
       sample_engine {| kw_context := None; kw_debug := Some 2%Z |} sample_instance
     = (self', Raise e)
     /\ spawned self' = spawned sample_instance
     /\ e = MadxException "Can't run MADX if no valid path and executable are defined."
     /\ is_configuration_error e = true)
  /\ (exists self' e,
       _attach sample_str (sample_beamline CNaN) sample_instance = (self', Raise e)
       /\ is_configuration_error e = true
       /\ spawned self' = spawned sample_instance).
Proof.
  destruct (configuration_errors_precede_engine sample_str sample_syntax
              MadXRendering.fragment_render no_executable sample_engine)
    as [Hrun Hattach].
  split.
  - destruct (Hrun sample_instance {| kw_context := None; kw_debug := Some 2%Z |} eq_refl)
      as (self' & e & He & Hsp & Hok & _).
    exists self', e. split; [exact He |]. split; [exact Hsp |].
    apply (Hok ("BEAM;STOP;")). vm_compute. reflexivity.
  - apply Hattach. right. reflexivity.
Defined.

Lemma failed_run_keeps_stop_command_witness :
  exists self' m,
    run sample_syntax sample_render no_executable sample_engine
      {| kw_context := None; kw_debug := None |} sample_instance
      = (self', Raise (MadxException m))
    /\ _input self' = _input sample_instance +:+ sample_syntax "stop".
Proof.
  apply (failed_run_keeps_stop_command sample_syntax sample_render no_executable
           sample_engine sample_instance).
  reflexivity.
Defined.

End MadXFacts.

(** * Further properties of the transfer matrices *)

Module TransferTableFacts.
Import Transfer TransferTable.
Local Open Scope R_scope.

Lemma lookup_item (e : list R) i x : e !! i = Some x -> array_item e i = Ok x.
Proof. intros H. unfold array_item. rewrite H. reflexivity. Qed.

Section Facts.
Variables INDEX_ANGLE INDEX_LENGTH INDEX_E1 INDEX_E2 INDEX_K1 : nat.

Ltac matrix_eq := repeat (f_equal; try ring).

(** X1. A quadrupole of zero strength, or of zero length whatever
    its strength, has the identity as transfer matrix. *)
Theorem quadrupole_identity (e : list R) (k L : R) :
  e !! INDEX_LENGTH = Some L ->
  e !! INDEX_K1 = Some k ->
  k = 0 \/ L = 0 ->
  quadrupole INDEX_LENGTH INDEX_K1 e = Ok eye5.
Proof.
  intros HL Hk Hz. unfold quadrupole.
  rewrite (lookup_item _ _ _ HL), (lookup_item _ _ _ Hk). cbn [rbind].
  unfold float_gt, float_lt.
  destruct (Rgt_dec k 0) as [Hpos | _]; [| destruct (Rlt_dec k 0) as [Hneg | _]].
  - destruct Hz as [-> | ->]; [lra |]. cbv zeta.
    rewrite Rmult_0_r, sin_0, cos_0, sinh_0, cosh_0. unfold eye5. matrix_eq.
  - destruct Hz as [-> | ->]; [lra |]. cbv zeta.
    rewrite Rmult_0_r, sin_0, cos_0, sinh_0, cosh_0. unfold eye5. matrix_eq.
  - reflexivity.
Qed.


Ltac product :=
  cbn [matmul dot column map seq length hd nth fold_right zip_with].

(** X2. Drift maps compose additively: the matrix of a drift of
    length [La] followed by a drift of length [Lb] is the matrix of a
    drift of length [La + Lb]. *)
Theorem drift_composes (a b c : list R) (La Lb : R) :
  a !! INDEX_LENGTH = Some La ->
  b !! INDEX_LENGTH = Some Lb ->
  c !! INDEX_LENGTH = Some (La + Lb) ->
  exists ma mb mc,
    drift INDEX_LENGTH a = Ok ma
    /\ drift INDEX_LENGTH b = Ok mb
    /\ drift INDEX_LENGTH c = Ok mc
    /\ matmul mb ma = mc.
Proof.
  intros Ha Hb Hc. unfold drift.
  rewrite (lookup_item _ _ _ Ha), (lookup_item _ _ _ Hb), (lookup_item _ _ _ Hc).
  cbn [rbind]. eexists _, _, _. repeat (split; [reflexivity |]).
  product. matrix_eq.
Qed.

(** X3. Rotations compose additively: the matrix of a rotation by
    [ta] followed by a rotation by [tb] is the matrix of the rotation
    by [ta + tb]. *)
Theorem rotation_composes (a b c : list R) (ta tb : R) :
  a !! INDEX_ANGLE = Some ta ->
  b !! INDEX_ANGLE = Some tb ->
  c !! INDEX_ANGLE = Some (ta + tb) ->
  exists ma mb mc,
    rotation INDEX_ANGLE a = Ok ma
    /\ rotation INDEX_ANGLE b = Ok mb
    /\ rotation INDEX_ANGLE c = Ok mc
    /\ matmul mb ma = mc.
Proof.
  intros Ha Hb Hc. unfold rotation.
  rewrite (lookup_item _ _ _ Ha), (lookup_item _ _ _ Hb), (lookup_item _ _ _ Hc).
  cbn [rbind]. eexists _, _, _. repeat (split; [reflexivity |]).
  product. rewrite cos_plus, sin_plus. matrix_eq.
Qed.

Lemma rotation_zero_identity (e : list R) :
  e !! INDEX_ANGLE = Some 0 ->
  rotation INDEX_ANGLE e = Ok eye5.
Proof.
  intros Ha. unfold rotation. rewrite (lookup_item _ _ _ Ha). cbn [rbind].
  rewrite cos_0, sin_0. unfold eye5. matrix_eq.
Qed.


Lemma thin_edge_zero_neutral (theta L : R) :
  matmul (matmul (thin_edge 0) (core_bend theta L)) (thin_edge 0) = core_bend theta L.
Proof. unfold thin_edge, core_bend. product. matrix_eq. Qed.

Lemma sbend_as_product (e : list R) (theta L e1 e2 : R) :
  e !! INDEX_ANGLE = Some theta ->
  e !! INDEX_LENGTH = Some L ->
  e !! INDEX_E1 = Some e1 ->
  e !! INDEX_E2 = Some e2 ->
  theta <> 0 ->
  sbend INDEX_ANGLE INDEX_LENGTH INDEX_E1 INDEX_E2 e =
    Ok (matmul (matmul (thin_edge (- tan e2 / (L / theta))) (core_bend theta L))
               (thin_edge (- tan e1 / (L / theta)))).
Proof.
  intros Ha HL H1 H2 Hne. unfold sbend.
  rewrite (lookup_item _ _ _ Ha), (lookup_item _ _ _ HL),
    (lookup_item _ _ _ H1), (lookup_item _ _ _ H2).
  cbn [rbind]. unfold float_eq.
  destruct (Req_dec_T theta 0) as [Hz | _]; [contradiction |].
  destruct (Req_dec_T e1 0) as [-> | Hn1]; [destruct (Req_dec_T e2 0) as [-> | Hn2] |];
    cbn [andb]; cbv zeta.
  - rewrite tan_0.
    replace (- 0 / (L / theta)) with 0 by (unfold Rdiv; ring).
    rewrite thin_edge_zero_neutral. reflexivity.
  - unfold thin_edge, core_bend. do 3 f_equal; unfold Rdiv; matrix_eq.
  - unfold thin_edge, core_bend. do 3 f_equal; unfold Rdiv; matrix_eq.
Qed.

(** X4. For a nonzero bend angle and a nonzero length the product
    exit edge . core . entrance edge gives the transfer matrix of
    [sbend] for all face angles: the return of the core matrix alone
    when both face angles are zero is a shortcut, not a different
    map. *)
Theorem sbend_product_formula (e : list R) (theta L e1 e2 : R) :
  e !! INDEX_ANGLE = Some theta ->
  e !! INDEX_LENGTH = Some L ->
  e !! INDEX_E1 = Some e1 ->
  e !! INDEX_E2 = Some e2 ->
  theta <> 0 ->
  L <> 0 ->
  sbend INDEX_ANGLE INDEX_LENGTH INDEX_E1 INDEX_E2 e =
    Ok (matmul (matmul (thin_edge (- tan e2 / (L / theta))) (core_bend theta L))
               (thin_edge (- tan e1 / (L / theta)))).
Proof. intros Ha HL H1 H2 Hne _. exact (sbend_as_product e theta L e1 e2 Ha HL H1 H2 Hne). Qed.


Ltac shape :=
  split; [split; [reflexivity | repeat constructor] | cbn [lookup list_lookup]; matrix_eq].

Lemma drift_shape e m : drift INDEX_LENGTH e = Ok m ->
  is_5x5 m /\ m !! 4%nat = Some [0; 0; 0; 0; 1].
Proof.
  unfold drift. destruct (array_item e INDEX_LENGTH); cbn [rbind]; [| discriminate].
  intros [= <-]. shape.
Qed.

Lemma rotation_shape e m : rotation INDEX_ANGLE e = Ok m ->
  is_5x5 m /\ m !! 4%nat = Some [0; 0; 0; 0; 1].
Proof.
  unfold rotation. destruct (array_item e INDEX_ANGLE); cbn [rbind]; [| discriminate].
  intros [= <-]. shape.
Qed.

Lemma quadrupole_shape e m : quadrupole INDEX_LENGTH INDEX_K1 e = Ok m ->
  is_5x5 m /\ m !! 4%nat = Some [0; 0; 0; 0; 1].
Proof.
  unfold quadrupole.
  destruct (array_item e INDEX_LENGTH); cbn [rbind]; [| discriminate].
  destruct (array_item e INDEX_K1); cbn [rbind]; [| discriminate].
  destruct (float_gt _ _); [| destruct (float_lt _ _)]; intros [= <-]; shape.
Qed.

Lemma sbend_shape e m :
  sbend INDEX_ANGLE INDEX_LENGTH INDEX_E1 INDEX_E2 e = Ok m ->
  is_5x5 m /\ m !! 4%nat = Some [0; 0; 0; 0; 1].
Proof.
  unfold sbend.
  destruct (array_item e INDEX_ANGLE) as [theta |]; cbn [rbind]; [| discriminate].
  destruct (float_eq theta 0); [apply drift_shape |].
  destruct (array_item e INDEX_LENGTH); cbn [rbind]; [| discriminate].
  destruct (array_item e INDEX_E1); cbn [rbind]; [| discriminate].
  destruct (array_item e INDEX_E2); cbn [rbind]; [| discriminate].
  destruct (_ && _); cbv zeta; intros [= <-]; [shape |].
  product. shape.
Qed.

(** X7. Every matrix returned by [rotation], [drift] or
    [quadrupole], and by [sbend] on an element whose angle is zero or
    whose length is not, has five rows of five entries and
    [0, 0, 0, 0, 1] as its last row: the fifth coordinate is carried
    unchanged. *)
Theorem transfer_matrix_shape (e : list R) (m : matrix) :
  rotation INDEX_ANGLE e = Ok m
  \/ drift INDEX_LENGTH e = Ok m
  \/ (sbend INDEX_ANGLE INDEX_LENGTH INDEX_E1 INDEX_E2 e = Ok m
      /\ (e !! INDEX_ANGLE = Some 0
          \/ exists L, e !! INDEX_LENGTH = Some L /\ L <> 0))
  \/ quadrupole INDEX_LENGTH INDEX_K1 e = Ok m ->
  is_5x5 m /\ m !! 4%nat = Some [0; 0; 0; 0; 1].
Proof.
  intros [H | [H | [[H _] | H]]].
  - exact (rotation_shape e m H).
  - exact (drift_shape e m H).
  - exact (sbend_shape e m H).
  - exact (quadrupole_shape e m H).
Qed.

(** X8. When the four class names have pairwise distinct codes, the
    table [transfer] maps each code to the function of its class and
    has no entry for any other code. *)
Theorem transfer_table (CLASS_CODES : gmap string nat) (d s q r : nat) :
  CLASS_CODES !! "DRIFT" = Some d ->
  CLASS_CODES !! "SBEND" = Some s ->
  CLASS_CODES !! "QUADRUPOLE" = Some q ->
  CLASS_CODES !! "ROTATION" = Some r ->
  NoDup [d; s; q; r] ->
  exists t,
    transfer INDEX_ANGLE INDEX_LENGTH INDEX_E1 INDEX_E2 INDEX_K1 CLASS_CODES = Ok t
    /\ t !! d = Some (drift INDEX_LENGTH)
    /\ t !! s = Some (sbend INDEX_ANGLE INDEX_LENGTH INDEX_E1 INDEX_E2)
    /\ t !! q = Some (quadrupole INDEX_LENGTH INDEX_K1)
    /\ t !! r = Some (rotation INDEX_ANGLE)
    /\ forall c, c ∉ [d; s; q; r] -> t !! c = None.
Proof.
  intros Hd Hs Hq Hr Hnd. unfold transfer, class_code.
  rewrite Hd, Hs, Hq, Hr. cbn [rbind]. eexists. split; [reflexivity |].
  assert (d <> s /\ d <> q /\ d <> r /\ s <> q /\ s <> r /\ q <> r)
    as (Hds & Hdq & Hdr & Hsq & Hsr & Hqr).
  { rewrite !NoDup_cons, !not_elem_of_cons in Hnd. tauto. }
  repeat split.
  - rewrite !lookup_insert_ne by congruence. apply lookup_insert_eq.
  - rewrite !lookup_insert_ne by congruence. apply lookup_insert_eq.
  - rewrite !lookup_insert_ne by congruence. apply lookup_insert_eq.
  - apply lookup_insert_eq.
  - intros c Hc. rewrite !not_elem_of_cons in Hc.
    destruct Hc as (Hcd & Hcs & Hcq & Hcr & _).
    rewrite !lookup_insert_ne by congruence. apply lookup_empty.
Qed.

End Facts.

(** *** The theorems at sample elements *)

Lemma quadrupole_identity_witness :
  quadrupole 1 4 [0; 0; 0; 0; 3] = Ok eye5.
Proof.
  apply (quadrupole_identity 1 4 [0; 0; 0; 0; 3] 3 0); try reflexivity.
  right. reflexivity.
Defined.

Lemma drift_composes_witness :
  exists ma mb mc,
    drift 1 [0; 2] = Ok ma /\ drift 1 [0; 3] = Ok mb /\ drift 1 [0; 2 + 3] = Ok mc
    /\ matmul mb ma = mc.
Proof. apply (drift_composes 1 [0; 2] [0; 3] [0; 2 + 3] 2 3); reflexivity. Defined.

Lemma rotation_composes_witness :
  exists ma mb mc,
    rotation 0 [1] = Ok ma /\ rotation 0 [2] = Ok mb /\ rotation 0 [1 + 2] = Ok mc
    /\ matmul mb ma = mc.
Proof. apply (rotation_composes 0 [1] [2] [1 + 2] 1 2); reflexivity. Defined.

Lemma sbend_product_formula_witness :
  sbend 0 1 2 3 [1; 2; 0; 0] =
    Ok (matmul (matmul (thin_edge (- tan 0 / (2 / 1))) (core_bend 1 2))
               (thin_edge (- tan 0 / (2 / 1)))).
Proof.
  apply (sbend_product_formula 0 1 2 3 [1; 2; 0; 0] 1 2 0 0); try reflexivity; lra.
Defined.

Lemma transfer_matrix_shape_witness :
  is_5x5 (drift_matrix 2) /\ drift_matrix 2 !! 4%nat = Some [0; 0; 0; 0; 1].
Proof.
  apply (transfer_matrix_shape 0 1 2 3 4 [0; 2] (drift_matrix 2)).
  right. left. reflexivity.
Defined.

Lemma transfer_table_witness :
  exists t,
    transfer 0 1 2 3 4
      (list_to_map [("DRIFT", 1%nat); ("SBEND", 2%nat); ("QUADRUPOLE", 3%nat);
                    ("ROTATION", 4%nat)]) = Ok t
    /\ t !! 1%nat = Some (drift 1)
    /\ t !! 2%nat = Some (sbend 0 1 2 3)
    /\ t !! 3%nat = Some (quadrupole 1 4)
    /\ t !! 4%nat = Some (rotation 0)
    /\ forall c, c ∉ [1%nat; 2%nat; 3%nat; 4%nat] -> t !! c = None.
Proof.
  apply (transfer_table 0 1 2 3 4
           (list_to_map [("DRIFT", 1%nat); ("SBEND", 2%nat); ("QUADRUPOLE", 3%nat);
                         ("ROTATION", 4%nat)]) 1 2 3 4); try reflexivity.
  apply (bool_decide_eq_true_1 (NoDup [1%nat; 2%nat; 3%nat; 4%nat])). reflexivity.
Defined.

End TransferTableFacts.

(** * Further properties of the MAD-X translation *)

Module MadXTextFacts.
Import MadX MadXText.

Lemma string_app_assoc (a b c : string) : (a +:+ b) +:+ c = a +:+ (b +:+ c).
Proof.
  induction a as [| x a IH]; [reflexivity |].
  change (String x ((a +:+ b) +:+ c) = String x (a +:+ (b +:+ c))).
  rewrite IH. reflexivity.
Qed.

Lemma string_app_empty (a : string) : a +:+ "" = a.
Proof.
  induction a as [| x a IH]; [reflexivity |].
  change (String x (a +:+ "") = String x a). rewrite IH. reflexivity.
Qed.

Lemma item_of_get e k : is_None (get e k) = false -> getitem e k = Ok (get e k).
Proof.
  unfold get, getitem. destruct (cells e !! k); simpl; [reflexivity | discriminate].
Qed.

Lemma item_of_notnull e k : pd_notnull (get e k) = true -> getitem e k = Ok (get e k).
Proof.
  intros H. apply item_of_get. revert H.
  destruct (get e k); simpl; intros H; try discriminate H; reflexivity.
Qed.

Lemma supported_class cls : cls ∈ SUPPORTED_CLASSES -> cell_in (CStr cls) SUPPORTED_CLASSES = true.
Proof.
  intros Hin. unfold cell_in. apply existsb_exists. exists (CStr cls). split.
  - apply in_map, list_elem_of_In, Hin.
  - simpl. apply String.eqb_refl.
Qed.

Section TextFacts.
Variable str_of_number : Q -> string.

Lemma finite_test e k :
  is_str (get e k) = false -> present_and_finite e k = Ok (is_number (get e k)).
Proof.
  intros Hs. unfold present_and_finite.
  destruct (is_None (get e k)) eqn:Hn.
  - revert Hn. destruct (get e k); simpl; intros Hn; try discriminate Hn; reflexivity.
  - rewrite (item_of_get _ _ Hn). cbn [rbind]. revert Hs Hn.
    destruct (get e k); simpl; intros Hs Hn; try discriminate; reflexivity.
Qed.

Lemma properties_of_row e l :
  mapM (fun p => v <-? getitem e p; Ok (p +:+ "=" +:+ format_cell str_of_number v))
       (List.filter (fun p => pd_notnull (get e p)) l)
  = Ok (map (fun p => p +:+ "=" +:+ format_cell str_of_number (get e p))
          (List.filter (fun p => pd_notnull (get e p)) l)).
Proof.
  induction l as [| p l IH]; [reflexivity |].
  cbn [List.filter]. destruct (pd_notnull (get e p)) eqn:Hp; [| exact IH].
  cbn [mapM map]. rewrite (item_of_notnull _ _ Hp). cbn [rbind].
  rewrite IH. reflexivity.
Qed.

Lemma default_of_number e k d : is_number (get e k) = true -> get_default e k d = get e k.
Proof.
  unfold get, get_default. destruct (cells e !! k); simpl; [reflexivity | discriminate].
Qed.

Lemma item_of_not_isnull e k : pd_isnull (get e k) = false -> getitem e k = Ok (get e k).
Proof. intros H. apply item_of_notnull. unfold pd_notnull. rewrite H. reflexivity. Qed.

Lemma element_normal_form (e : Series) (cls : string) :
  cells e !! "CLASS" = Some (CStr cls) ->
  cls ∈ SUPPORTED_CLASSES ->
  numeric_angles e ->
  element_to_mad str_of_number e = expected_element str_of_number e cls.
Proof.
  intros Hc Hsup [Hb Ha].
  unfold element_to_mad, expected_element, getattr. rewrite Hc. cbn [rbind].
  rewrite (supported_class _ Hsup). cbn [negb].
  rewrite (finite_test _ _ Hb). cbn [rbind].
  rewrite properties_of_row.
  unfold element_text, angle_text, properties_text, length_text, powering_text.
  cbn [format_cell].
  replace (pd_notnull (get e "VALUE")) with (negb (pd_isnull (get e "VALUE")))
    by reflexivity.
  destruct (is_number (get e "BENDING_ANGLE")) eqn:Hbn.
  1: rewrite item_of_get
      by (revert Hbn; destruct (get e "BENDING_ANGLE"); simpl; intros Hbn;
          try discriminate Hbn; reflexivity).
  2: rewrite (finite_test _ _ Ha); cbn [rbind];
     destruct (is_number (get e "ANGLE")) eqn:Han;
       [rewrite (default_of_number _ _ (CNum 0) Han) |].
  all: cbn [rbind].
  all: destruct (getitem e "LENGTH") as [len |]; cbn [rbind]; [| reflexivity].
  all: destruct (pd_notnull (get e "APERTYPE"));
         [destruct (getitem e "APERTURE") as [ap |]; cbn [rbind]; [| reflexivity] |];
         cbn [rbind].
  all: destruct (pd_notnull (get e "PLUG")) eqn:Hp;
       destruct (pd_notnull (get e "CIRCUIT")) eqn:Hci;
       destruct (pd_isnull (get e "VALUE")) eqn:Hv; cbn [andb negb rbind].
  all: rewrite ?(item_of_notnull _ _ Hp), ?(item_of_notnull _ _ Hci),
         ?(item_of_not_isnull _ _ Hv); cbn [rbind].
  all: destruct (getitem e "AT_CENTER") as [at_center |]; cbn [rbind]; [| reflexivity].
  all: destruct (pd_notnull len && differs_from_zero len)%bool.
  all: f_equal; rewrite ?string_app_assoc; reflexivity.
Qed.


(** X9. For a row of a supported class whose angle fields hold
    numbers, nulls or nothing, the translation is the text
    [name: CLASS, ] followed by the angle term, the non-null supported
    properties, the length term, the aperture term, the powering terms
    and [, AT=position;], and it fails only with a KeyError on
    LENGTH, on APERTURE (read when APERTYPE is non-null) or on
    AT_CENTER, the first that is missing in this order. *)
Theorem element_to_mad_text (e : Series) (cls : string) :
  cells e !! "CLASS" = Some (CStr cls) ->
  cls ∈ SUPPORTED_CLASSES ->
  numeric_angles e ->
  element_to_mad str_of_number e = expected_element str_of_number e cls.
Proof. apply element_normal_form. Qed.

(** X10. Such a row translates if and only if it has a LENGTH field
    and an AT_CENTER field and, when its APERTYPE is non-null, an
    APERTURE field. *)
Theorem element_to_mad_succeeds_iff (e : Series) (cls : string) :
  cells e !! "CLASS" = Some (CStr cls) ->
  cls ∈ SUPPORTED_CLASSES ->
  numeric_angles e ->
  (exists text, element_to_mad str_of_number e = Ok text)
  <-> is_Some (cells e !! "LENGTH")
      /\ is_Some (cells e !! "AT_CENTER")
      /\ (pd_notnull (get e "APERTYPE") = true -> is_Some (cells e !! "APERTURE")).
Proof.
  intros Hc Hsup Hnum. rewrite (element_normal_form e cls Hc Hsup Hnum).
  unfold expected_element, getitem.
  destruct (cells e !! "LENGTH") as [len |]; cbn [rbind].
  2: { split; [intros [t Ht]; discriminate | intros ([x Hx] & _); discriminate]. }
  destruct (pd_notnull (get e "APERTYPE")).
  - destruct (cells e !! "APERTURE") as [ap |]; cbn [rbind].
    + destruct (cells e !! "AT_CENTER") as [at_center |]; cbn [rbind].
      * split; [intros _; repeat split; eauto | intros _; eexists; reflexivity].
      * split; [intros [t Ht]; discriminate | intros (_ & [x Hx] & _); discriminate].
    + split; [intros [t Ht]; discriminate |].
      intros (_ & _ & Hap). destruct (Hap eq_refl) as [x Hx]. discriminate.
  - cbn [rbind]. destruct (cells e !! "AT_CENTER") as [at_center |]; cbn [rbind].
    + split; [intros _; repeat split; eauto; intros Hf; discriminate
             | intros _; eexists; reflexivity].
    + split; [intros [t Ht]; discriminate | intros (_ & [x Hx] & _); discriminate].
Qed.

Lemma mapM_ext_in {A B} (f g : A -> result B) (l : list A) :
  (forall a, In a l -> f a = g a) -> mapM f l = mapM g l.
Proof.
  induction l as [| a l IH]; intros Hfg; [reflexivity |].
  cbn [mapM]. rewrite (Hfg a) by (left; reflexivity).
  rewrite IH by (intros b Hb; apply Hfg; right; exact Hb). reflexivity.
Qed.

Lemma property_is_not_angle p : In p SUPPORTED_PROPERTIES -> p <> "ANGLE".
Proof.
  intros Hin ->. apply list_elem_of_In in Hin.
  revert Hin. apply (bool_decide_eq_false_1 ("ANGLE" ∈ SUPPORTED_PROPERTIES)). reflexivity.
Qed.

(** X11. When BENDING_ANGLE holds a number, the translation does not
    depend on the ANGLE field: two rows of the same label that agree
    on every field but ANGLE translate alike, whatever ANGLE holds
    and whether it exists. *)
Theorem bending_angle_overrides_angle (e e' : Series) (x : Q) :
  cells e !! "BENDING_ANGLE" = Some (CNum x) ->
  name e' = name e ->
  (forall k, k <> "ANGLE" -> cells e' !! k = cells e !! k) ->
  element_to_mad str_of_number e' = element_to_mad str_of_number e.
Proof.
  intros Hb Hname Hsame.
  assert (forall k, k <> "ANGLE" -> get e' k = get e k) as Hget
    by (intros k Hk; unfold get; rewrite (Hsame k Hk); reflexivity).
  assert (forall k, k <> "ANGLE" -> getitem e' k = getitem e k) as Hitem
    by (intros k Hk; unfold getitem; rewrite (Hsame k Hk); reflexivity).
  assert (present_and_finite e "BENDING_ANGLE" = Ok true) as Hfin.
  { unfold present_and_finite, get, getitem. rewrite Hb. reflexivity. }
  unfold element_to_mad, getattr.
  rewrite (Hsame "CLASS") by discriminate.
  destruct (cells e !! "CLASS") as [c |]; cbn [rbind]; [| reflexivity].
  destruct (negb (cell_in c SUPPORTED_CLASSES)); [reflexivity |].
  assert (present_and_finite e' "BENDING_ANGLE" = Ok true) as ->.
  { unfold present_and_finite. rewrite Hget, Hitem by discriminate. exact Hfin. }
  rewrite Hfin. cbn [rbind]. rewrite Hname.
  rewrite !(Hitem "BENDING_ANGLE") by discriminate.
  rewrite (filter_ext_in (fun p => pd_notnull (get e' p)) (fun p => pd_notnull (get e p)))
    by (intros p Hp; rewrite (Hget p (property_is_not_angle p Hp)); reflexivity).
  rewrite (mapM_ext_in
             (fun p => v <-? getitem e' p; Ok (p +:+ "=" +:+ format_cell str_of_number v))
             (fun p => v <-? getitem e p; Ok (p +:+ "=" +:+ format_cell str_of_number v))).
  2: { intros p Hp. apply filter_In in Hp as [Hp _].
       rewrite (Hitem p (property_is_not_angle p Hp)). reflexivity. }
  rewrite !(Hitem "LENGTH"), !(Hitem "APERTURE"), !(Hitem "PLUG"), !(Hitem "CIRCUIT"),
    !(Hitem "VALUE"), !(Hitem "AT_CENTER") by discriminate.
  rewrite !(Hget "APERTYPE"), !(Hget "PLUG"), !(Hget "CIRCUIT"), !(Hget "VALUE")
    by discriminate.
  reflexivity.
Qed.

End TextFacts.

(** *** The theorems at the sample rows *)

Lemma element_to_mad_text_witness :
  element_to_mad sample_str (sample_row "Q1" "QUADRUPOLE" (CNum 4) (CStr "IQ1"))
  = expected_element sample_str (sample_row "Q1" "QUADRUPOLE" (CNum 4) (CStr "IQ1"))
      "QUADRUPOLE".
Proof.
  apply (element_to_mad_text sample_str
           (sample_row "Q1" "QUADRUPOLE" (CNum 4) (CStr "IQ1")) "QUADRUPOLE").
  - reflexivity.
  - apply (bool_decide_eq_true_1 ("QUADRUPOLE" ∈ SUPPORTED_CLASSES)). reflexivity.
  - split; reflexivity.
Defined.

Lemma element_to_mad_succeeds_iff_witness :
  (exists text, element_to_mad sample_str sample_collimator = Ok text)
  <-> is_Some (cells sample_collimator !! "LENGTH")
      /\ is_Some (cells sample_collimator !! "AT_CENTER")
      /\ (pd_notnull (get sample_collimator "APERTYPE") = true ->
          is_Some (cells sample_collimator !! "APERTURE")).
Proof.
  apply (element_to_mad_succeeds_iff sample_str sample_collimator "COLLIMATOR").
  - reflexivity.
  - apply (bool_decide_eq_true_1 ("COLLIMATOR" ∈ SUPPORTED_CLASSES)). reflexivity.
  - split; reflexivity.
Defined.

Lemma bending_angle_overrides_angle_witness :
  element_to_mad sample_str (with_angle sample_bend (CStr "unknown"))
  = element_to_mad sample_str sample_bend.
Proof.
  apply (bending_angle_overrides_angle sample_str sample_bend
           (with_angle sample_bend (CStr "unknown")) 1).
  - reflexivity.
  - reflexivity.
  - intros k Hk. apply lookup_insert_ne. congruence.
Defined.

End MadXTextFacts.

(** * Further properties of the sequence translation and of the wrapper *)

Module MadXRunFacts.
Import MadX.

Lemma text_app_assoc (a b c : string) : (a +:+ b) +:+ c = a +:+ (b +:+ c).
Proof.
  induction a as [| x a IH]; [reflexivity |].
  change (String x ((a +:+ b) +:+ c) = String x (a +:+ (b +:+ c))).
  rewrite IH. reflexivity.
Qed.

Lemma text_app_empty (a : string) : a +:+ "" = a.
Proof.
  induction a as [| x a IH]; [reflexivity |].
  change (String x (a +:+ "") = String x a). rewrite IH. reflexivity.
Qed.

Lemma mapM_first_failure {A B} (f : A -> result B) (before : list A) (a : A)
    (after : list A) (e : exn) :
  Forall (fun r => exists b, f r = Ok b) before ->
  f a = Raise e ->
  mapM f (before ++ a :: after)%list = Raise e.
Proof.
  intros Hok Hbad. induction Hok as [| r l [b Hb] _ IH]; cbn [app mapM].
  - rewrite Hbad. reflexivity.
  - rewrite Hb. cbn [rbind]. rewrite IH. reflexivity.
Qed.

Lemma sort_values_numeric (sequence : DataFrame) :
  "AT_CENTER" ∈ columns sequence ->
  Forall (fun r => is_str (get r "AT_CENTER") = false) (rows sequence) ->
  sort_values "AT_CENTER" sequence =
    Ok {| sequence_name := sequence_name sequence;
          sequence_length := sequence_length sequence;
          columns := columns sequence;
          rows := sort_rows "AT_CENTER" (rows sequence) |}.
Proof.
  intros Hcol Hnum. unfold sort_values.
  rewrite (bool_decide_eq_true_2 _ Hcol). cbn [negb].
  assert (existsb (fun r => is_str (get r "AT_CENTER")) (rows sequence) = false) as ->;
    [| reflexivity].
  apply not_true_is_false. intros Hex.
  apply existsb_exists in Hex as (r & Hin & Hr).
  rewrite Forall_forall in Hnum. apply list_elem_of_In in Hin.
  rewrite (Hnum r Hin) in Hr. discriminate.
Qed.

Section RunFacts.
Variable str_of_number : Q -> string.
Variable madx_syntax : string -> string.
Variable str_format : string -> list arg -> string.
Variable jinja2_render : string -> context -> string.
Variable resolve_executable : string -> option string.
Variable communicate : string -> string -> string.

Lemma sequence_without_positions (sequence : DataFrame) :
  "AT_CENTER" ∉ columns sequence ->
  sequence_to_mad str_of_number sequence = (sequence, Raise (KeyError "AT_CENTER")).
Proof.
  intros Hno. unfold sequence_to_mad, sort_values.
  rewrite (bool_decide_eq_false_2 _ Hno). reflexivity.
Qed.

(** X12. When a row of a table with numeric positions fails to
    translate, [sequence_to_mad] raises the exception of the first
    such row in position order, and the table is left sorted all the
    same. *)
Theorem sequence_to_mad_first_failure (sequence : DataFrame)
    (before : list Series) (bad : Series) (after : list Series) (e : exn) :
  "AT_CENTER" ∈ columns sequence ->
  Forall (fun r => is_str (get r "AT_CENTER") = false) (rows sequence) ->
  sort_rows "AT_CENTER" (rows sequence) = (before ++ bad :: after)%list ->
  Forall (fun r => exists text, element_to_mad str_of_number r = Ok text) before ->
  element_to_mad str_of_number bad = Raise e ->
  snd (sequence_to_mad str_of_number sequence) = Raise e
  /\ rows (fst (sequence_to_mad str_of_number sequence)) = (before ++ bad :: after)%list.
Proof.
  intros Hcol Hnum Hsorted Hok Hbad. unfold sequence_to_mad.
  rewrite (sort_values_numeric _ Hcol Hnum). cbn [fst snd rows]. rewrite Hsorted.
  split; [| reflexivity].
  unfold apply_element_to_mad. cbn [rows].
  rewrite (mapM_first_failure _ _ _ _ _ Hok Hbad).
  destruct (before ++ bad :: after)%list eqn:Hrows; [| reflexivity].
  destruct before; discriminate Hrows.
Qed.


(** The instance after a run that found an executable. *)
Lemma run_with_executable (self : Madx) (kwargs : run_kwargs) (path : string) :
  resolve_executable (_exec self) = Some path ->
  exists self',
    run madx_syntax jinja2_render resolve_executable communicate kwargs self
      = (self', Ok tt)
    /\ _input self' = _input self +:+ madx_syntax "stop"
    /\ spawned self' =
         (spawned self
          ++ [(path, jinja2_render (_input self +:+ madx_syntax "stop")
                       (default ∅ (kw_context kwargs)))])%list
    /\ _output self' =
         communicate path
           (jinja2_render (_input self +:+ madx_syntax "stop")
              (default ∅ (kw_context kwargs)))
    /\ _warnings self' = List.filter is_warning (split_on "010"%char (_output self'))
    /\ _fatals self' = List.filter is_fatal (split_on "010"%char (_output self'))
    /\ _last_context self' = default ∅ (kw_context kwargs)
    /\ _beamlines self' = _beamlines self.
Proof.
  intros Hpath. destruct self as [inp bl ex out warn fat ctx con sp].
  cbn [_exec] in Hpath.
  unfold run, _get_exec, print, append_input.
  unfold bind, update, read, ret, raise.
  cbn [set_input _input _exec].
  destruct (2 <=? default 0%Z (kw_debug kwargs))%Z;
    cbn [set_console set_input _input _exec]; rewrite Hpath;
    destruct (negb (default 0 (kw_debug kwargs) =? 0)%Z);
    eexists; (split; [reflexivity |]); cbn; repeat split; reflexivity.
Qed.

Lemma fatal_is_warning line : is_fatal line = true -> is_warning line = true.
Proof. unfold is_warning, is_fatal. intros ->. apply orb_true_r. Qed.

Lemma filter_fatal_of_warnings (l : list string) :
  List.filter is_fatal (List.filter is_warning l) = List.filter is_fatal l.
Proof.
  induction l as [| x l IH]; [reflexivity |]. cbn [List.filter].
  destruct (is_warning x) eqn:Hw; cbn [List.filter].
  - rewrite IH. reflexivity.
  - destruct (is_fatal x) eqn:Hf; [| exact IH].
    rewrite (fatal_is_warning x Hf) in Hw. discriminate.
Qed.

(** X14. After a run that reached the engine, a line is a warning
    exactly when it is a line of the output that contains "warning"
    or "fatal", a fatal exactly when it is a line of the output that
    contains "fatal"; the fatals are the warnings that contain
    "fatal", in the same order. *)
Theorem run_classifies_output (self : Madx) (kwargs : run_kwargs) (path : string) :
  resolve_executable (_exec self) = Some path ->
  let self' := fst (run madx_syntax jinja2_render resolve_executable communicate
                      kwargs self) in
  (forall line,
     In line (_warnings self') <->
     In line (split_on "010"%char (_output self'))
     /\ (contains "warning" line = true \/ contains "fatal" line = true))
  /\ (forall line,
       In line (_fatals self') <->
       In line (split_on "010"%char (_output self')) /\ contains "fatal" line = true)
  /\ _fatals self' = List.filter is_fatal (_warnings self').
Proof.
  intros Hpath.
  destruct (run_with_executable self kwargs path Hpath)
    as (self' & Hrun & _ & _ & _ & Hw & Hf & _ & _).
  rewrite Hrun. cbn [fst]. rewrite Hw, Hf. split; [| split].
  - intros line. rewrite filter_In. unfold is_warning. rewrite orb_true_iff. reflexivity.
  - intros line. rewrite filter_In. reflexivity.
  - symmetry. apply filter_fatal_of_warnings.
Qed.

Lemma for_each_appends {A} (l : list A) (g : A -> string) (self : Madx) :
  for_each l (fun a => append_input (g a)) self =
    (set_input self (fold_left (fun buffer a => buffer +:+ g a) l (_input self)), Ok tt).
Proof.
  revert self. induction l as [| a l IH]; intros self.
  - destruct self. reflexivity.
  - cbn [for_each fold_left]. unfold bind at 1. unfold append_input at 1. unfold update.
    rewrite IH. reflexivity.
Qed.

Lemma proper_superset_spec (a b : list string) :
  proper_superset a b = true <-> b ⊆ a /\ ~ a ⊆ b.
Proof.
  unfold proper_superset. rewrite andb_true_iff, negb_true_iff.
  rewrite forallb_forall, <- not_true_iff_false, forallb_forall.
  split; intros [H1 H2]; split.
  - intros x Hx. apply (bool_decide_eq_true_1 _), H1, list_elem_of_In, Hx.
  - intros Hsub. apply H2. intros x Hx.
    apply bool_decide_eq_true_2, Hsub, list_elem_of_In, Hx.
  - intros x Hx. apply bool_decide_eq_true_2, H1, list_elem_of_In, Hx.
  - intros Hall. apply H2. intros x Hx.
    apply (bool_decide_eq_true_1 _), Hall, list_elem_of_In, Hx.
Qed.

(** X15. The particle helper tests the table, not the particles:
    when the columns of the table are a proper subset of X, PX, Y, PY,
    DPP nothing is injected; in every other case, a table that lacks
    some of the five but has a column outside them included, one start
    command per row is appended, in row order. *)
Theorem particles_injected_by_table (particles : DataFrame) (ptc : bool) (self : Madx) :
  let required := ["X"; "PX"; "Y"; "PY"; "DPP"] in
  let command := if ptc then "ptc_start" else "start_particle" in
  (columns particles ⊆ required /\ ~ required ⊆ columns particles ->
     _Madx__add_particles_for_tracking madx_syntax str_format particles ptc self
     = (self, Ok tt))
  /\ (~ (columns particles ⊆ required /\ ~ required ⊆ columns particles) ->
      _Madx__add_particles_for_tracking madx_syntax str_format particles ptc self
      = (set_input self
           (fold_left
              (fun buffer r => buffer +:+ str_format (madx_syntax command) [ARow r])
              (rows particles) (_input self)),
         Ok tt)).
Proof.
  intros required command. unfold _Madx__add_particles_for_tracking.
  fold required. split; intros Hcase.
  - apply proper_superset_spec in Hcase. rewrite Hcase. reflexivity.
  - destruct (proper_superset required (columns particles)) eqn:Hp.
    + apply proper_superset_spec in Hp. contradiction.
    + unfold command. destruct ptc; unfold _add_input; apply for_each_appends.
Qed.

(** X16. Attaching a beamline of defined length is all or nothing on
    the buffer and never starts the engine: when the table translates
    the whole sequence text is appended, and when the translation
    raises, the exception comes out and the buffer is as before. *)
Theorem attach_all_or_nothing (self : Madx) (beamline : Beamline) :
  pd_isnull (beamline_length beamline) = false ->
  let outcome := snd (sequence_to_mad str_of_number (line beamline)) in
  exists self',
    _attach str_of_number beamline self
      = (self', match outcome with Ok _ => Ok tt | Raise e => Raise e end)
    /\ _input self' =
         match outcome with
         | Ok text => _input self +:+ text
         | Raise _ => _input self
         end
    /\ spawned self' = spawned self.
Proof.
  intros Hlen outcome. subst outcome.
  unfold _attach, bind, Simulator_attach, update, raise, lift, append_input.
  assert (is_None (beamline_length beamline) = false) as ->
    by (revert Hlen; destruct (beamline_length beamline); simpl; congruence).
  rewrite Hlen. cbn [orb].
  destruct (sequence_to_mad str_of_number (line beamline)) as [sorted [text | e]];
    cbn [snd]; eexists; (split; [reflexivity |]); split; reflexivity.
Qed.

End RunFacts.

Section RenderedRunFacts.
Variable madx_syntax : string -> string.
Variable jinja2_render : string -> context -> result string.
Variable resolve_executable : string -> option string.
Variable communicate : string -> string -> string.

(** X13. When the template engine renders the buffer followed by the
    stop command and an executable is resolved, [run] returns
    normally having started exactly one subprocess, that executable,
    fed with the rendered text; the buffer keeps the stop command,
    and the output and the context of the run replace the previous
    ones. *)
Theorem run_starts_one_engine (self : Madx) (kwargs : run_kwargs) (path stdin : string) :
  jinja2_render (_input self +:+ madx_syntax "stop") (default ∅ (kw_context kwargs))
    = Ok stdin ->
  resolve_executable (_exec self) = Some path ->
  exists self',
    MadXRendering.run madx_syntax jinja2_render resolve_executable communicate
      kwargs self = (self', Ok tt)
    /\ _input self' = _input self +:+ madx_syntax "stop"
    /\ spawned self' = (spawned self ++ [(path, stdin)])%list
    /\ _output self' = communicate path stdin
    /\ _last_context self' = default ∅ (kw_context kwargs).
Proof.
  intros Hrender Hpath.
  rewrite MadXFacts.run_outcome, Hrender.
  destruct (run_with_executable madx_syntax (fun _ _ => stdin) resolve_executable
              communicate self kwargs path Hpath)
    as (self' & Hrun & Hin & Hsp & Hout & _ & _ & Hctx & _).
  exists self'. repeat split; assumption.
Qed.

End RenderedRunFacts.

(** *** The theorems at the sample data *)

Lemma sequence_to_mad_first_failure_witness :
  snd (sequence_to_mad sample_str MadXSamples.sample_broken_table)
    = Raise (KeyError "APERTURE")
  /\ rows (fst (sequence_to_mad sample_str MadXSamples.sample_broken_table))
     = ([sample_row "Q1" "QUADRUPOLE" (CNum 1) CNaN] ++ sample_collimator :: [])%list.
Proof.
  apply (sequence_to_mad_first_failure sample_str MadXSamples.sample_broken_table
           [sample_row "Q1" "QUADRUPOLE" (CNum 1) CNaN] sample_collimator []
           (KeyError "APERTURE")).
  - apply (bool_decide_eq_true_1
             ("AT_CENTER" ∈ columns MadXSamples.sample_broken_table)). reflexivity.
  - repeat constructor.
  - vm_compute. reflexivity.
  - constructor; [| constructor]. eexists. vm_compute. reflexivity.
  - vm_compute. reflexivity.
Defined.

Lemma run_starts_one_engine_witness :
  exists self',
    MadXRendering.run sample_syntax MadXRendering.fragment_render local_executable
      sample_engine {| kw_context := None; kw_debug := None |} sample_instance
    = (self', Ok tt)
    /\ _input self' = _input sample_instance +:+ sample_syntax "stop"
    /\ spawned self' = (spawned sample_instance ++ [("/usr/local/bin/madx", "BEAM;STOP;")])%list
    /\ _output self' = sample_engine "/usr/local/bin/madx" "BEAM;STOP;"
    /\ _last_context self' = default ∅ None.
Proof.
  apply (run_starts_one_engine sample_syntax MadXRendering.fragment_render
           local_executable sample_engine sample_instance
           {| kw_context := None; kw_debug := None |} "/usr/local/bin/madx" "BEAM;STOP;").
  - vm_compute. reflexivity.
  - reflexivity.
Defined.

Lemma run_classifies_output_witness :
  let self' := fst (run sample_syntax sample_render local_executable sample_engine
                      {| kw_context := None; kw_debug := None |} sample_instance) in
  (forall line,
     In line (_warnings self') <->
     In line (split_on "010"%char (_output self'))
     /\ (contains "warning" line = true \/ contains "fatal" line = true))
  /\ (forall line,
       In line (_fatals self') <->
       In line (split_on "010"%char (_output self')) /\ contains "fatal" line = true)
  /\ _fatals self' = List.filter is_fatal (_warnings self').
Proof.
  apply (run_classifies_output sample_syntax sample_render local_executable
           sample_engine sample_instance {| kw_context := None; kw_debug := None |}
           "/usr/local/bin/madx").
  reflexivity.
Defined.

Lemma particles_injected_by_table_witness :
  _Madx__add_particles_for_tracking sample_syntax sample_format
    MadXSamples.sample_partial_particles false sample_instance
  = (sample_instance, Ok tt)
  /\ _Madx__add_particles_for_tracking sample_syntax sample_format
       MadXSamples.sample_timed_particles false sample_instance
     = (set_input sample_instance
          (fold_left
             (fun buffer r =>
                buffer +:+ sample_format (sample_syntax "start_particle") [ARow r])
             (rows MadXSamples.sample_timed_particles) (_input sample_instance)),
        Ok tt).
Proof.
  split.
  - apply (particles_injected_by_table sample_syntax sample_format
             MadXSamples.sample_partial_particles false sample_instance).
    apply proper_superset_spec. reflexivity.
  - apply (particles_injected_by_table sample_syntax sample_format
             MadXSamples.sample_timed_particles false sample_instance).
    intros Hsub. apply proper_superset_spec in Hsub. vm_compute in Hsub. discriminate Hsub.
Defined.

Lemma attach_all_or_nothing_witness :
  let outcome := snd (sequence_to_mad sample_str (line (sample_beamline (CNum 10)))) in
  exists self',
    _attach sample_str (sample_beamline (CNum 10)) sample_instance
      = (self', match outcome with Ok _ => Ok tt | Raise e => Raise e end)
    /\ _input self' =
         match outcome with
         | Ok text => _input sample_instance +:+ text
         | Raise _ => _input sample_instance
         end
    /\ spawned self' = spawned sample_instance.
Proof.
  apply (attach_all_or_nothing sample_str sample_instance (sample_beamline (CNum 10))).
  reflexivity.
Defined.

End MadXRunFacts.

(** * Properties of the command builders *)

Module MadXCommandsFacts.
Import MadX MadXCommands.

Lemma buffer_app_assoc (a b c : string) : (a +:+ b) +:+ c = a +:+ (b +:+ c).
Proof.
  induction a as [| x a IH]; [reflexivity |].
  change (String x ((a +:+ b) +:+ c) = String x (a +:+ (b +:+ c))).
  rewrite IH. reflexivity.
Qed.

Lemma buffer_app_empty (a : string) : a +:+ "" = a.
Proof.
  induction a as [| x a IH]; [reflexivity |].
  change (String x (a +:+ "") = String x a). rewrite IH. reflexivity.
Qed.

Lemma only_appends_refl self : only_appends self self.
Proof.
  split; [exists ""; symmetry; apply buffer_app_empty |]. repeat split; reflexivity.
Qed.

Lemma only_appends_trans s1 s2 s3 :
  only_appends s1 s2 -> only_appends s2 s3 -> only_appends s1 s3.
Proof.
  intros ([t1 H1] & A1 & B1 & C1 & D1 & E1 & F1) ([t2 H2] & A2 & B2 & C2 & D2 & E2 & F2).
  split; [exists (t1 +:+ t2); rewrite H2, H1; apply buffer_app_assoc |].
  repeat split; congruence.
Qed.

Lemma builder_ret {A} (a : A) : builder (ret a).
Proof. intros self. apply only_appends_refl. Qed.

Lemma builder_raise {A} (e : exn) : builder (raise (A := A) e).
Proof. intros self. apply only_appends_refl. Qed.

Lemma builder_lift {A} (r : result A) : builder (lift r).
Proof. intros self. apply only_appends_refl. Qed.

Lemma builder_read : builder read.
Proof. intros self. apply only_appends_refl. Qed.

Lemma builder_bind {A B} (m : M A) (k : A -> M B) :
  builder m -> (forall a, builder (k a)) -> builder (bind m k).
Proof.
  intros Hm Hk self. unfold bind. specialize (Hm self).
  destruct (m self) as [self' [a | e]]; cbn [fst] in *.
  - eapply only_appends_trans; [exact Hm | apply Hk].
  - exact Hm.
Qed.

Lemma builder_append_input (s : string) : builder (append_input s).
Proof.
  intros self. unfold append_input, update. cbn [fst].
  split; [exists s; reflexivity |]. repeat split; reflexivity.
Qed.

Lemma builder_print (s : string) : builder (print s).
Proof.
  intros self. unfold print, update. cbn [fst].
  split; [exists ""; symmetry; apply buffer_app_empty |]. repeat split; reflexivity.
Qed.

Lemma builder_set_beamlines (f : Madx -> list Beamline) :
  builder (update (fun self => set_beamlines self (f self))).
Proof.
  intros self. unfold update. cbn [fst].
  split; [exists ""; symmetry; apply buffer_app_empty |]. repeat split; reflexivity.
Qed.

Lemma builder_for_each {A} (l : list A) (f : A -> M unit) :
  (forall a, builder (f a)) -> builder (for_each l f).
Proof.
  intros Hf. induction l as [| a l IH]; cbn [for_each].
  - apply builder_ret.
  - apply builder_bind; [apply Hf | intros _; exact IH].
Qed.

Lemma builder_if {A} (b : bool) (m1 m2 : M A) :
  builder m1 -> builder m2 -> builder (if b then m1 else m2).
Proof. destruct b; auto. Qed.

Create HintDb builders.
#[local] Hint Resolve builder_ret builder_raise builder_lift builder_read
  builder_append_input builder_print builder_set_beamlines : builders.

Ltac build :=
  repeat first
    [ apply builder_bind; [| intros ?]
    | apply builder_for_each; intros ?
    | apply builder_if
    | solve [auto with builders] ].

Lemma returns_ret : returns (ret tt).
Proof. intros self. reflexivity. Qed.

Lemma returns_bind (m k : M unit) : returns m -> returns k -> returns (m;; k).
Proof.
  intros Hm Hk self. unfold bind. specialize (Hm self).
  destruct (m self) as [self' [[] | e]]; cbn [snd] in *; [apply Hk | discriminate].
Qed.

Lemma returns_append_input (s : string) : returns (append_input s).
Proof. intros self. reflexivity. Qed.

Lemma returns_print (s : string) : returns (print s).
Proof. intros self. reflexivity. Qed.

Lemma returns_for_each {A} (l : list A) (f : A -> M unit) :
  (forall a, returns (f a)) -> returns (for_each l f).
Proof.
  intros Hf. induction l as [| a l IH]; cbn [for_each].
  - apply returns_ret.
  - apply returns_bind; [apply Hf | exact IH].
Qed.

Lemma returns_if (b : bool) (m1 m2 : M unit) :
  returns m1 -> returns m2 -> returns (if b then m1 else m2).
Proof. destruct b; auto. Qed.

#[local] Hint Resolve returns_ret returns_append_input returns_print : builders.

Ltac total :=
  repeat first
    [ apply returns_bind
    | apply returns_for_each; intros ?
    | apply returns_if
    | solve [auto with builders] ].

Section CommandFacts.
Variable str_of_number : Q -> string.
Variable madx_syntax : string -> string.
Variable str_format : string -> list arg -> string.
Variable str_of_beamline : Beamline -> string.
Variable str_of_list : list cell -> string.

Lemma builder_add_input keyword args :
  builder (_add_input madx_syntax str_format keyword args).
Proof. apply builder_append_input. Qed.

Lemma builder_raw r : builder (raw r).
Proof. apply builder_append_input. Qed.

Lemma builder_use_sequence s : builder (use_sequence madx_syntax str_format s).
Proof. apply builder_add_input. Qed.

#[local] Hint Resolve builder_add_input builder_raw builder_use_sequence : builders.

Lemma builder_makethin s kw : builder (makethin str_of_number madx_syntax str_format s kw).
Proof. unfold makethin. build. Qed.

Lemma builder_particles p ptc :
  builder (_Madx__add_particles_for_tracking madx_syntax str_format p ptc).
Proof. unfold _Madx__add_particles_for_tracking. build. Qed.

Lemma builder_observe e l :
  builder (_Madx__generate_observation_points madx_syntax str_format e l).
Proof. unfold _Madx__generate_observation_points. build. Qed.

Lemma builder_observe_ptc e l :
  builder (_Madx__generate_observation_points_ptc madx_syntax str_format e l).
Proof. unfold _Madx__generate_observation_points_ptc. build. Qed.

#[local] Hint Resolve builder_makethin builder_particles builder_observe
  builder_observe_ptc : builders.

Lemma builder_madx_track p b kw :
  builder (_Madx__madx_track str_of_number madx_syntax str_format p b kw).
Proof.
  unfold _Madx__madx_track, getattr_self. build.
Qed.

Lemma builder_ptc_track p b kw :
  builder (_Madx__ptc_track madx_syntax str_format p b kw).
Proof. unfold _Madx__ptc_track. build. Qed.

Lemma builder_misalign t : builder (misalign madx_syntax str_format t).
Proof. unfold misalign, _Madx__add_misalignment_element. build. Qed.

#[local] Hint Resolve builder_madx_track builder_ptc_track builder_misalign : builders.

Lemma builder_track p b kw :
  builder (track str_of_number madx_syntax str_format p b kw).
Proof. unfold track. build. Qed.

Lemma builder_sectormap kw :
  builder (sectormap str_of_number madx_syntax str_format str_of_beamline str_of_list kw).
Proof. unfold sectormap. build. Qed.

Lemma builder_twiss kw :
  builder (twiss str_of_number madx_syntax str_format str_of_beamline str_of_list kw).
Proof. unfold twiss, _Madx__ptc_twiss, _Madx__madx_twiss. build. Qed.

Lemma builder_survey kw : builder (survey str_of_number madx_syntax str_format kw).
Proof. unfold survey. build. Qed.

Lemma builder_match kw : builder (match_ madx_syntax str_format kw).
Proof. unfold match_. build. Qed.

Lemma builder_attach b : builder (_attach str_of_number b).
Proof.
  unfold _attach, Simulator_attach.
  destruct (sequence_to_mad str_of_number (line b)) as [sorted text]. build.
Qed.


(** X17. Every command builder only appends: whether it returns or
    raises, it leaves the old buffer as a prefix of the new one,
    starts no subprocess and does not touch the output, warnings,
    fatals or context of the last run. *)
Theorem builders_only_append :
  (forall r, builder (raw r))
  /\ (forall s, builder (use_sequence madx_syntax str_format s))
  /\ (forall n, builder (beam madx_syntax str_format n))
  /\ builder (rbarc madx_syntax str_format)
  /\ builder (show_beam madx_syntax str_format)
  /\ (forall kw, builder (save_beta madx_syntax str_format kw))
  /\ builder (stop madx_syntax str_format)
  /\ (forall s kw, builder (makethin str_of_number madx_syntax str_format s kw))
  /\ (forall kw, builder (survey str_of_number madx_syntax str_format kw))
  /\ (forall kw, builder (sectormap str_of_number madx_syntax str_format
                            str_of_beamline str_of_list kw))
  /\ (forall kw, builder (twiss str_of_number madx_syntax str_format
                            str_of_beamline str_of_list kw))
  /\ (forall t, builder (misalign madx_syntax str_format t))
  /\ (forall p b kw, builder (track str_of_number madx_syntax str_format p b kw))
  /\ (forall kw, builder (match_ madx_syntax str_format kw))
  /\ (forall b, builder (_attach str_of_number b)).
Proof.
  split; [intros; apply builder_raw |].
  split; [intros; apply builder_use_sequence |].
  split; [intros; unfold beam; build |].
  split; [apply builder_add_input |].
  split; [apply builder_add_input |].
  split; [intros; apply builder_add_input |].
  split; [apply builder_add_input |].
  split; [intros; apply builder_makethin |].
  split; [intros; apply builder_survey |].
  split; [intros; apply builder_sectormap |].
  split; [intros; apply builder_twiss |].
  split; [intros; apply builder_misalign |].
  split; [intros; apply builder_track |].
  split; [intros; apply builder_match |].
  intros; apply builder_attach.
Qed.

(** X19. Without misalignment, the plain twiss without a line raises
    MadxException and leaves the instance as it was. *)
Theorem twiss_requires_line (kw : kwargs) (self : Madx) :
  kw_truthy (kw_get kw "misalignment") = false ->
  kw_truthy (kw_get kw "ptc") = false ->
  kw_is_None (kw_get kw "line") = true ->
  twiss str_of_number madx_syntax str_format str_of_beamline str_of_list kw self
  = (self, Raise (MadxException "A beamline must be provided.")).
Proof.
  intros Hm Hp Hl. unfold twiss, _Madx__madx_twiss. rewrite Hm, Hp, Hl. reflexivity.
Qed.

(** X20. With misalignment requested, [twiss] fails whatever else it
    is given: it appends the misalignment option, then raises
    AttributeError, handing [misalign] the list of recorded beamlines
    where a beamline is expected; no twiss command is issued. *)
Theorem twiss_with_misalignment_raises (kw : kwargs) (self : Madx) :
  kw_truthy (kw_get kw "misalignment") = true ->
  twiss str_of_number madx_syntax str_format str_of_beamline str_of_list kw self
  = (set_input self (_input self +:+ str_format (madx_syntax "misalign_option") []),
     Raise (AttributeError "line")).
Proof.
  intros Hm. unfold twiss. rewrite Hm. reflexivity.
Qed.


Lemma returns_add_input keyword args :
  returns (_add_input madx_syntax str_format keyword args).
Proof. apply returns_append_input. Qed.

Lemma returns_raw r : returns (raw r).
Proof. apply returns_append_input. Qed.

#[local] Hint Resolve returns_add_input returns_raw : builders.

(** X18. The outcomes of [sectormap]: without a line it raises
    MadxException and leaves the instance as it was; with a line and
    places that cannot be iterated (none given, for one) it raises
    the TypeError of the iteration, after the re-cycling commands if a
    start was given and with the instance as it was otherwise; with a
    line and iterable places it returns normally. *)
Theorem sectormap_outcomes (kw : kwargs) (self : Madx) :
  let call := sectormap str_of_number madx_syntax str_format str_of_beamline
                str_of_list kw self in
  (kw_is_None (kw_get kw "line") = true ->
     call = (self, Raise (MadxException "A beamline must be provided.")))
  /\ (kw_is_None (kw_get kw "line") = false ->
      forall e, kw_iter (kw_get kw "places") = Raise e ->
        snd call = Raise e
        /\ (kw_truthy (kw_get kw "start") = false -> fst call = self))
  /\ (kw_is_None (kw_get kw "line") = false ->
      forall places, kw_iter (kw_get kw "places") = Ok places ->
        snd call = Ok tt).
Proof.
  intros call. subst call. unfold sectormap.
  split; [intros ->; reflexivity |].
  split; intros ->.
  - intros e He. rewrite He. split.
    + unfold bind at 1.
      match goal with |- context [(if ?b then ?m else ret tt) self] =>
        assert (returns (if b then m else ret tt)) as Hr by total;
        specialize (Hr self);
        destruct ((if b then m else ret tt) self) as [s1 [[] | e1]];
        cbn [snd] in Hr; [reflexivity | discriminate]
      end.
    + intros ->. reflexivity.
  - intros places Hp. rewrite Hp.
    match goal with |- snd (?m self) = Ok tt =>
      assert (returns m) as Hr; [| exact (Hr self)]
    end.
    apply returns_bind; [total |].
    intros s. unfold bind at 1. unfold lift. cbn [snd].
    match goal with |- snd (?m s) = Ok tt =>
      assert (returns m) as Hr; [total | exact (Hr s)]
    end.
Qed.

(** X21. The PTC twiss needs no line: without misalignment it returns
    normally whatever the arguments, a line given or not. *)
Theorem ptc_twiss_always_returns (kw : kwargs) (self : Madx) :
  kw_truthy (kw_get kw "misalignment") = false ->
  kw_truthy (kw_get kw "ptc") = true ->
  snd (twiss str_of_number madx_syntax str_format str_of_beamline str_of_list kw self)
  = Ok tt.
Proof.
  intros Hm Hp. unfold twiss. rewrite Hm, Hp.
  match goal with |- snd (?m self) = Ok tt =>
    assert (returns m) as Hr; [| exact (Hr self)]
  end.
  unfold _Madx__ptc_twiss. rewrite Hm. total.
Qed.

(** X22. Tracking no particle, without misalignment: both variants
    return normally with the notice printed; the buffer is untouched
    unless a start element was given, in which case the four
    re-cycling commands have been appended before the test. *)
Theorem track_without_particles (particles : DataFrame) (beamline : Beamline)
    (kw : gmap string cell) (self : Madx) :
  rows particles = [] ->
  truthy (default CNone (kw !! "misalignment")) = false ->
  exists self',
    track str_of_number madx_syntax str_format particles beamline kw self = (self', Ok tt)
    /\ console self' = (console self ++ ["No particles to track... Doing nothing."])%list
    /\ _input self' =
         if truthy (default CNone (kw !! "start")) then
           ((((_input self
               +:+ ("SEQEDIT, SEQUENCE=" +:+ beamline_name beamline +:+ ";") +:+ nl)
              +:+ ("CYCLE, START="
                   +:+ format_cell str_of_number (default CNone (kw !! "start")) +:+ ";")
                  +:+ nl)
             +:+ "ENDEDIT;" +:+ nl)
            +:+ ("USE, SEQUENCE=" +:+ beamline_name beamline +:+ ";") +:+ nl)
         else _input self.
Proof.
  intros Hrows Hm. unfold track, _Madx__ptc_track, _Madx__madx_track.
  rewrite Hrows, Hm. cbn [List.length Nat.eqb].
  destruct (truthy (default CNone (kw !! "start")));
    destruct (from_option truthy true (kw !! "ptc"));
    eexists; (split; [reflexivity |]); split; reflexivity.
Qed.

End CommandFacts.
(** *** The theorems at sample calls *)

Import MadXCommandSamples.

Lemma sectormap_outcomes_witness :
  sectormap sample_str sample_syntax sample_format beamline_name sample_str_of_list
    [("places", sample_places)] sample_instance
  = (sample_instance, Raise (MadxException "A beamline must be provided."))
  /\ (snd (sectormap sample_str sample_syntax sample_format beamline_name
            sample_str_of_list [("line", sample_line)] sample_instance)
      = Raise (TypeError "object is not iterable")
      /\ fst (sectormap sample_str sample_syntax sample_format beamline_name
                sample_str_of_list [("line", sample_line)] sample_instance)
         = sample_instance)
  /\ snd (sectormap sample_str sample_syntax sample_format beamline_name
            sample_str_of_list [("line", sample_line); ("places", sample_places)]
            sample_instance)
     = Ok tt.
Proof.
  split; [| split].
  - apply (sectormap_outcomes sample_str sample_syntax sample_format beamline_name
             sample_str_of_list [("places", sample_places)] sample_instance).
    reflexivity.
  - destruct (sectormap_outcomes sample_str sample_syntax sample_format beamline_name
                sample_str_of_list [("line", sample_line)] sample_instance)
      as (_ & Hfail & _).
    destruct (Hfail eq_refl (TypeError "object is not iterable")) as [Hs Hf];
      [reflexivity |].
    split; [exact Hs | apply Hf; reflexivity].
  - destruct (sectormap_outcomes sample_str sample_syntax sample_format beamline_name
                sample_str_of_list [("line", sample_line); ("places", sample_places)]
                sample_instance) as (_ & _ & Hok).
    apply (Hok eq_refl [CStr "Q1"; CStr "Q2"]). reflexivity.
Defined.

Lemma twiss_requires_line_witness :
  twiss sample_str sample_syntax sample_format beamline_name sample_str_of_list
    [("file", KCell (CStr "out.tfs"))] sample_instance
  = (sample_instance, Raise (MadxException "A beamline must be provided.")).
Proof.
  apply (twiss_requires_line sample_str sample_syntax sample_format beamline_name
           sample_str_of_list [("file", KCell (CStr "out.tfs"))] sample_instance);
    reflexivity.
Defined.

Lemma twiss_with_misalignment_raises_witness :
  twiss sample_str sample_syntax sample_format beamline_name sample_str_of_list
    [("line", sample_line); ("misalignment", KCell (CNum 1))] sample_instance
  = (set_input sample_instance
       (_input sample_instance +:+ sample_format (sample_syntax "misalign_option") []),
     Raise (AttributeError "line")).
Proof.
  apply (twiss_with_misalignment_raises sample_str sample_syntax sample_format
           beamline_name sample_str_of_list
           [("line", sample_line); ("misalignment", KCell (CNum 1))] sample_instance).
  reflexivity.
Defined.

Lemma ptc_twiss_always_returns_witness :
  snd (twiss sample_str sample_syntax sample_format beamline_name sample_str_of_list
         [("ptc", KCell (CNum 1))] sample_instance)
  = Ok tt.
Proof.
  apply (ptc_twiss_always_returns sample_str sample_syntax sample_format beamline_name
           sample_str_of_list [("ptc", KCell (CNum 1))] sample_instance); reflexivity.
Defined.

Lemma track_without_particles_witness :
  exists self',
    track sample_str sample_syntax sample_format no_particles (sample_beamline (CNum 10))
      ∅ sample_instance = (self', Ok tt)
    /\ console self'
       = (console sample_instance ++ ["No particles to track... Doing nothing."])%list
    /\ _input self' = _input sample_instance.
Proof.
  destruct (track_without_particles sample_str sample_syntax sample_format no_particles
              (sample_beamline (CNum 10)) ∅ sample_instance)
    as (self' & Hrun & Hconsole & Hinput); [reflexivity | reflexivity |].
  exists self'. repeat split; assumption.
Defined.

End MadXCommandsFacts.
